(** * The colour control: Backbone model [ControlColor] and view [ControlColorView]

    A shallow embedding of [src/models/control-color.js] and
    [src/views/control-color.js], together with the part of Backbone 1.3.3,
    Underscore 1.8.3 and jQuery that the two files run on (the versions the
    test runner of the tutorial loads).

    JavaScript arrays that are mutated in place live in a heap and are
    handled by reference.  The checked list is carried by value: a world
    holds what the stored array contains at that moment.  After
    construction neither source file changes a checked array in place, so
    every operation is traced from the state it finds; an array changed by
    its owner between two operations makes a different starting state.
    Construction, where [initialize] does push onto an array that may also
    be the checked one, is given with both arrays by reference in
    [ByReference]. *)

From stdpp Require Import gmap strings list.

Open Scope string_scope.
Open Scope list_scope.

(** ** Underscore.js on arrays of strings *)

Module Underscore.

(** [_.contains(list, value)] *)
Definition contains (l : list string) (value : string) : bool :=
  bool_decide (value ∈ l).

(** [_.contains] applied to an attribute that may be [undefined]:
    Underscore treats a missing collection as empty. *)
Definition contains_undef (l : option (list string)) (value : string) : bool :=
  match l with
  | Some l => contains l value
  | None => false
  end.

(** [_.without(array, value)]: a new array, every occurrence removed. *)
Definition without (l : list string) (value : string) : list string :=
  filter (λ x, x ≠ value) l.

(** [_.isEqual(a, b)] on two arrays of strings: element-wise, in order. *)
Definition isEqual (a b : list string) : bool :=
  bool_decide (a = b).

End Underscore.

(** ** The heap of shared arrays *)

Definition loc := nat.

(** [array.push(value)], in place.  References never dangle in JavaScript;
    on an address that holds nothing the model leaves the heap as it is. *)
Definition push (l : loc) (value : string) (h : gmap loc (list string))
  : gmap loc (list string) :=
  alter (λ a, a ++ [value]) l h.

(** Reading the array behind a reference. *)
Definition deref (h : gmap loc (list string)) (l : loc) : list string :=
  default [] (h !! l).

(** ** Backbone.Model, restricted to the attributes [options] and [checked] *)

(** The attribute hash: [options] is a reference, [checked] a value. *)
Record attrs := Attrs {
  options : loc;
  checked : list string
}.

(** The callbacks that the two source files register for ['change:checked']. *)
Inductive callback :=
| cb_updateChecked   (* ControlColor.updateChecked, bound by [this.on] *)
| cb_render.         (* ControlColorView.render, bound by [this.listenTo] *)

Global Instance callback_eq_dec : EqDecision callback.
Proof. solve_decision. Defined.

Record Model := mkModel {
  attributes : attrs;
  _previousAttributes : option attrs;   (* [None] is the empty hash {} *)
  _changing : bool;
  _pending : bool;
  _events : list callback               (* listeners of 'change:checked' *)
}.

(** The rendered children of the view's element. *)
Inductive node :=
| input_checkbox (value : string) (is_checked : bool)
| other_node.

Global Instance node_eq_dec : EqDecision node.
Proof. solve_decision. Defined.

(** What happened, in order: calls of [model.set('checked', ...)], calls of
    [trigger], and callbacks invoked by [trigger]. *)
Inductive event :=
| ev_set (val : list string) (silent : bool)
| ev_trigger (name : string) (payload : option (list string))
| ev_call (cb : callback) (payload : list string).

Global Instance event_eq_dec : EqDecision event.
Proof. solve_decision. Defined.

Record World := mkWorld {
  heap : gmap loc (list string);
  model : Model;
  el : list node;
  log : list event
}.

Definition with_model (m : Model) (w : World) : World :=
  mkWorld (heap w) m (el w) (log w).

Definition with_el (items : list node) (w : World) : World :=
  mkWorld (heap w) (model w) items (log w).

Definition record (e : event) (w : World) : World :=
  mkWorld (heap w) (model w) (el w) (log w ++ [e]).

Definition with_pending (b : bool) (w : World) : World :=
  let m := model w in
  with_model (mkModel (attributes m) (_previousAttributes m) (_changing m) b (_events m)) w.

Definition with_changing (b : bool) (w : World) : World :=
  let m := model w in
  with_model (mkModel (attributes m) (_previousAttributes m) b (_pending m) (_events m)) w.

(** [model.get('checked')] and [model.get('options')] *)
Definition getChecked (w : World) : list string :=
  checked (attributes (model w)).

Definition getOptions (w : World) : list string :=
  deref (heap w) (options (attributes (model w))).

(** [model.previous('checked')] *)
Definition previous_checked (w : World) : option (list string) :=
  checked <$> _previousAttributes (model w).

(** [Events.on] / [Events.listenTo]: listeners run in registration order. *)
Definition on (cb : callback) (m : Model) : Model :=
  mkModel (attributes m) (_previousAttributes m) (_changing m) (_pending m)
          (_events m ++ [cb]).

(** The [Backbone.Model] constructor given both attributes, as the view's
    tests build their model: [this.attributes = {}], then [this.set(attrs)]
    while nothing listens yet, so the attributes are stored as supplied,
    [_previousAttributes] is the clone of the empty hash, and the model is
    left at rest. *)
Definition new_Model (a : attrs) : Model :=
  mkModel a None false false [].

(** ** src/models/control-color.js *)

Module ControlColor.

(** The attributes argument of [new ControlColor(attrs)]; either key may be
    absent, and [new ControlColor()] passes neither. *)
Record Args := mkArgs {
  arg_options : option loc;
  arg_checked : option (list string)
}.

(** The array literal [options: []] of [defaults] is created once, when the
    class is defined, and every instance reaches that same array. *)
Definition defaults_options : loc := 0.

Definition defaults : attrs := Attrs defaults_options ["all"].

(** The heap right after the class definition has been evaluated. *)
Definition heap0 : gmap loc (list string) := {[ defaults_options := [] ]}.

(** [_.defaults(attrs || {}, this.defaults)], read at key [options]. *)
Definition defaulted_options (a : Args) : loc :=
  default (options defaults) (arg_options a).

Definition defaulted_checked (a : Args) : list string :=
  default (checked defaults) (arg_checked a).

(** [initialize]: push ['all'] onto [attrs.options], then listen to the
    model's own ['change:checked']. *)
Definition initialize (a : Args) (m : Model) (h : gmap loc (list string))
  : Model * gmap loc (list string) :=
  let h := push (defaulted_options a) "all" h in
  (on cb_updateChecked m, h).

Section Methods.

(** [this.set('checked', val, {silent: ...})] of the enclosing model. *)
Variable set : list string → bool → World → option World.

(** [updateChecked(model, checked)] *)
Definition updateChecked (checked : list string) (w : World) : option World :=
  if Underscore.contains checked "all" then
    let itemsToCheck :=
      if Underscore.contains_undef (previous_checked w) "all"
      then Underscore.without checked "all"
      else ["all"] in
    set itemsToCheck true w
  else Some w.

End Methods.

End ControlColor.

(** ** src/views/control-color.js *)

Module ControlColorView.

(** [initialize]: [this.listenTo(this.model, 'change:checked', this.render)] *)
Definition initialize (w : World) : World :=
  with_model (on cb_render (model w)) w.

(** The controls [render] builds, one per option. *)
Definition items (opts checked : list string) : list node :=
  map (λ opt, input_checkbox opt (Underscore.contains checked opt)) opts.

(** [render]: build the items, then [this.$el.empty().append(items)]. *)
Definition render (w : World) : World :=
  let checked := getChecked w in
  with_el (items (getOptions w) checked) w.

(** The jQuery selection [this.$('input[type="checkbox"]:checked')],
    in document order. *)
Definition selected (n : node) : bool :=
  match n with
  | input_checkbox _ b => b
  | other_node => false
  end.

(** [_.pluck(selection, 'value')] *)
Definition pluck_value (ns : list node) : list string :=
  omap (λ n, match n with
             | input_checkbox v _ => Some v
             | other_node => None
             end) ns.

Section Methods.

Variable set : list string → bool → World → option World.

(** [handleChange] *)
Definition handleChange (w : World) : option World :=
  let checked := pluck_value (filter (λ n, selected n = true) (el w)) in
  set checked false w.

End Methods.

End ControlColorView.

(** ** Backbone.Model.prototype.set and Events.trigger *)

Module Backbone.

(** One listener of ['change:checked'] is invoked with the model and the
    value; [set] is the model's own method at the remaining call depth. *)
Definition invoke (set : list string → bool → World → option World)
    (val : list string) (acc : option World) (cb : callback) : option World :=
  w ← acc;
  let w := record (ev_call cb val) w in
  match cb with
  | cb_updateChecked => ControlColor.updateChecked set val w
  | cb_render => Some (ControlColorView.render w)
  end.

(** [this.trigger('change:checked', this, val, options)]: the listeners
    registered at that moment, in order. *)
Definition trigger_change_checked
    (set : list string → bool → World → option World)
    (val : list string) (w : World) : option World :=
  let w := record (ev_trigger "change:checked" (Some val)) w in
  foldl (invoke set val) (Some w) (_events (model w)).

(** [this.trigger('change', this, options)]: neither source file listens. *)
Definition trigger_change (w : World) : World :=
  record (ev_trigger "change" None) w.

(** The body of [set('checked', val, {silent})]; [self] is [this.set] as
    the listeners reach it.  The [changed] hash, which neither source file
    reads, is left out. *)
Definition set_body (self : list string → bool → World → option World)
    (val : list string) (silent : bool) (w : World) : option World :=
  let w := record (ev_set val silent) w in
  let m := model w in
  let changing := _changing m in
  (* if (!changing) this._previousAttributes = _.clone(this.attributes) *)
  let prev := if changing then _previousAttributes m else Some (attributes m) in
  (* if (!_.isEqual(current[attr], val)) changes.push(attr) *)
  let changes := negb (Underscore.isEqual (checked (attributes m)) val) in
  (* current[attr] = val *)
  let w := with_model (mkModel (Attrs (options (attributes m)) val) prev true
                               (_pending m) (_events m)) w in
  w ← (if silent then Some w
       else if changes
            then trigger_change_checked self val (with_pending true w)
            else Some w);
  if changing then Some w
  else
    (* while (this._pending) { this._pending = false; trigger('change') } *)
    let w := if silent then w
             else if _pending (model w)
                  then trigger_change (with_pending false w)
                  else w in
    Some (with_changing false (with_pending false w)).

(** [set]; [fuel] bounds the depth of nested calls ([set] reaches
    [updateChecked], which calls [set] again). *)
Fixpoint set (fuel : nat) (val : list string) (silent : bool) (w : World)
  : option World :=
  match fuel with
  | O => None
  | S fuel => set_body (set fuel) val silent w
  end.

End Backbone.

(** [new ControlColor(attrs)]: the Backbone constructor fills the attributes
    from [defaults] and stores them before any listener exists, then calls
    [initialize] with the caller's argument. *)
Definition new_ControlColor (a : ControlColor.Args) (h : gmap loc (list string))
  : Model * gmap loc (list string) :=
  let m := new_Model (Attrs (ControlColor.defaulted_options a)
                            (ControlColor.defaulted_checked a)) in
  ControlColor.initialize a m h.

(** [new ControlColorView({el, model})] over an element with the given
    children. *)
Definition new_ControlColorView (children : list node)
    (mh : Model * gmap loc (list string)) : World :=
  ControlColorView.initialize (mkWorld mh.2 mh.1 children []).

(** A model on its own, with no view bound to it. *)
Definition standalone (mh : Model * gmap loc (list string)) : World :=
  mkWorld mh.2 mh.1 [] [].

(** [model.set('checked', val)] as an outside caller writes it.  Two levels
    of calls are all the source ever nests. *)
Definition setChecked (val : list string) (w : World) : option World :=
  Backbone.set 2 val false w.

(** [input.prop('checked', b)] on the controls whose value is [v]. *)
Definition prop_checked (v : string) (b : bool) (w : World) : World :=
  with_el (map (λ n, match n with
                     | input_checkbox v' c =>
                         if bool_decide (v' = v) then input_checkbox v' b else n
                     | other_node => n
                     end) (el w)) w.

(** ** States met between two outside calls *)

(** No [set] is in progress and no ['change'] is owed. *)
Definition at_rest (w : World) : Prop :=
  _changing (model w) = false ∧ _pending (model w) = false.

(** The model is a [ControlColor], and at most the one view listens to it. *)
Definition is_ControlColor (w : World) : Prop :=
  _events (model w) = [cb_updateChecked] ∨
  _events (model w) = [cb_updateChecked; cb_render].

(** The model is a [ControlColor] and the view is bound to it. *)
Definition view_bound (w : World) : Prop :=
  _events (model w) = [cb_updateChecked; cb_render].

(** The invariant of the data model: ["all"] is checked alone or not at all. *)
Definition all_exclusive (checked : list string) : Prop :=
  checked = ["all"] ∨ "all" ∉ checked.

Global Instance all_exclusive_dec checked : Decision (all_exclusive checked).
Proof. unfold all_exclusive. apply _. Defined.

(** The reconciliation rule in the words of the specification (section 4.1,
    steps 2 and 3), to be compared with what the code stores. *)
Definition spec_reconcile (previous newChecked : list string) : list string :=
  if bool_decide ("all" ∈ newChecked) then
    if bool_decide ("all" ∈ previous)
    then filter (λ x, x ≠ "all") newChecked
    else ["all"]
  else newChecked.

(** A run of outside calls, one after the other. *)
Fixpoint setChecked_all (calls : list (list string)) (w : World) : option World :=
  match calls with
  | [] => Some w
  | val :: calls => w ← setChecked val w; setChecked_all calls w
  end.

(** ** Worlds and observations used in the statements *)

(** A freshly built [ControlColor] with the default attributes. *)
Definition fresh : World :=
  standalone (new_ControlColor (ControlColor.mkArgs None None) ControlColor.heap0).

(** A [ControlColor] built with the given checked list and no options. *)
Definition built_with (checked : list string) : World :=
  standalone (new_ControlColor (ControlColor.mkArgs None (Some checked))
                               ControlColor.heap0).

(** The heap once a caller has written [var opts = ['red', 'green', 'blue']]. *)
Definition caller_heap : gmap loc (list string) :=
  <[1 := ["red"; "green"; "blue"]]> ControlColor.heap0.

(** The view of the tests: a plain [Backbone.Model] with options
    red, green, blue and checked blue, red, an empty container, rendered. *)
Definition test_view : World :=
  ControlColorView.render
    (new_ControlColorView [] (new_Model (Attrs 1 ["blue"; "red"]), caller_heap)).

(** The same view over a [ControlColor] built from the same attributes. *)
Definition color_view : World :=
  ControlColorView.render
    (new_ControlColorView []
       (new_ControlColor (ControlColor.mkArgs (Some 1) (Some ["blue"; "red"]))
                         caller_heap)).

(** The change event of a checkbox reaches [handleChange], whose [set] is the
    model's. *)
Definition fire_change (w : World) : option World :=
  ControlColorView.handleChange (Backbone.set 2) w.

(** The listeners of a [ControlColor], with or without the view. *)
Definition listeners (bound : bool) : list callback :=
  cb_updateChecked :: (if bound then [cb_render] else []).

(** The entries a notifying call adds to the log. *)
Definition notified (bound : bool) (prev val : list string) : list event :=
  [ev_set val false; ev_trigger "change:checked" (Some val);
   ev_call cb_updateChecked val]
  ++ (if Underscore.contains val "all"
      then [ev_set (spec_reconcile prev val) true] else [])
  ++ (if bound then [ev_call cb_render val] else [])
  ++ [ev_trigger "change" None].

Definition is_call (cb : callback) (e : event) : bool :=
  match e with
  | ev_call cb' _ => bool_decide (cb' = cb)
  | _ => false
  end.

Definition is_trigger (name : string) (e : event) : bool :=
  match e with
  | ev_trigger name' _ => bool_decide (name' = name)
  | _ => false
  end.

Definition count_events (f : event → bool) (d : list event) : nat :=
  length (filter (λ e, f e = true) d).

(** ** Further worlds and observations *)

(** The controls on screen are those [render] would build now. *)
Definition in_sync (w : World) : Prop :=
  el w = ControlColorView.items (getOptions w) (getChecked w).

(** The model is a plain [Backbone.Model] with the view bound to it, as in
    the view's tests. *)
Definition plain_bound (w : World) : Prop :=
  _events (model w) = [cb_render].

(** The heap after one [new ControlColor(attrs)] for each argument of the
    list, in order. *)
Fixpoint build_all (args : list ControlColor.Args) (h : gmap loc (list string))
  : gmap loc (list string) :=
  match args with
  | [] => h
  | a :: args => build_all args (new_ControlColor a h).2
  end.

(** How many constructions of the list push onto the array of [defaults]. *)
Definition on_defaults (args : list ControlColor.Args) : nat :=
  length (filter (λ a, ControlColor.defaulted_options a
                       = ControlColor.defaults_options) args).

(** Every control of value [v] gets the flag [b] and the change event is
    fired once, as [find('input[value=...]').prop('checked', b)
    .trigger('change')] does in the view's tests.  Where one control
    carries [v] and [b] is the opposite of its flag, this is a click on
    it. *)
Definition toggle (v : string) (b : bool) (w : World) : option World :=
  fire_change (prop_checked v b w).

(** The list [handleChange] submits after the click. *)
Definition clicked (v : string) (b : bool) (w : World) : list string :=
  filter (λ o, (if bool_decide (o = v) then b
                else Underscore.contains (getChecked w) o) = true)
         (getOptions w).

(** The heap, the options reference and the listeners are the same. *)
Definition same_frame (w w' : World) : Prop :=
  heap w' = heap w ∧
  options (attributes (model w')) = options (attributes (model w)) ∧
  _events (model w') = _events (model w).

(** The values of the checked controls, as [handleChange] collects them. *)
Definition shown (w : World) : list string :=
  ControlColorView.pluck_value
    (filter (λ n, ControlColorView.selected n = true) (el w)).

(** ** Construction with both arrays handed over by reference *)

Module ByReference.

(** The array literal [checked: ['all']] of [defaults]: like [options: []]
    it is created once, when the class is defined, and every instance that
    is given no checked list reaches that same array. *)
Definition defaults_checked : loc := 2.

(** The heap right after the class definition, with both arrays of
    [defaults]. *)
Definition heap0 : gmap loc (list string) :=
  <[defaults_checked := ["all"]]> ControlColor.heap0.

(** [new ControlColor({options: o, checked: c})] where [o] and [c] are
    arrays the caller holds (or are absent): the Backbone constructor stores
    the two references as they are, and [initialize] pushes ['all'] onto
    the array behind [options].  The model reads its checked list through
    the stored reference; the world carries what that array holds once the
    constructor has returned, which is after the push. *)
Definition new_ControlColor (o c : option loc) (h : gmap loc (list string))
  : Model * gmap loc (list string) :=
  let options_ref := default ControlColor.defaults_options o in
  let checked_ref := default defaults_checked c in
  let h := push options_ref "all" h in
  (on cb_updateChecked (new_Model (Attrs options_ref (deref h checked_ref))), h).

End ByReference.

(** The user clicks the control at position [i]: the browser flips the flag
    of that one control and reports the change, which reaches
    [handleChange]; where there is no checkbox, nothing happens. *)
Definition click (i : nat) (w : World) : option World :=
  match el w !! i with
  | Some (input_checkbox v b) =>
      fire_change (with_el (<[i := input_checkbox v (negb b)]> (el w)) w)
  | _ => Some w
  end.

(** * Properties *)

(** ** The nested call of [set] *)

Lemma set_silent (n : nat) (val : list string) (w : World) :
  Backbone.set (S n) val true w =
  let m := model w in
  let prev := if _changing m then _previousAttributes m else Some (attributes m) in
  let w1 := with_model (mkModel (Attrs (options (attributes m)) val) prev true
                                (_pending m) (_events m))
                       (record (ev_set val true) w) in
  Some (if _changing m then w1 else with_changing false (with_pending false w1)).
Proof.
  destruct w as [h [a p ch pe evs] e lg].
  destruct ch; reflexivity.
Qed.

Lemma invoke_fuel (n : nat) (val : list string) (acc : option World) (cb : callback) :
  Backbone.invoke (Backbone.set (S n)) val acc cb =
  Backbone.invoke (Backbone.set 1) val acc cb.
Proof.
  destruct acc as [w|]; [|reflexivity].
  destruct cb; [|reflexivity].
  unfold Backbone.invoke, ControlColor.updateChecked.
  cbn [mbind option_bind].
  destruct (Underscore.contains val "all"); [|reflexivity].
  rewrite !set_silent. reflexivity.
Qed.

Lemma foldl_invoke_fuel (n : nat) (val : list string) (cbs : list callback) :
  ∀ acc, foldl (Backbone.invoke (Backbone.set (S n)) val) acc cbs =
         foldl (Backbone.invoke (Backbone.set 1) val) acc cbs.
Proof.
  induction cbs as [|cb cbs IH]; intros acc; [reflexivity|].
  cbn [foldl]. rewrite IH, invoke_fuel. reflexivity.
Qed.

(** More fuel than two levels changes nothing. *)
Lemma set_fuel (n : nat) (val : list string) (silent : bool) (w : World) :
  Backbone.set (S (S n)) val silent w = Backbone.set 2 val silent w.
Proof.
  destruct silent; [rewrite !set_silent; reflexivity|].
  change (Backbone.set_body (Backbone.set (S n)) val false w =
          Backbone.set_body (Backbone.set 1) val false w).
  unfold Backbone.set_body.
  destruct (negb _); [|reflexivity].
  unfold Backbone.trigger_change_checked.
  rewrite foldl_invoke_fuel. reflexivity.
Qed.

Lemma invoke_total (val : list string) (w : World) (cb : callback) :
  is_Some (Backbone.invoke (Backbone.set 1) val (Some w) cb).
Proof.
  destruct cb; [|eexists; reflexivity].
  unfold Backbone.invoke, ControlColor.updateChecked.
  cbn [mbind option_bind].
  destruct (Underscore.contains val "all"); [|eexists; reflexivity].
  rewrite set_silent. eexists; reflexivity.
Qed.

Lemma foldl_invoke_total (val : list string) (cbs : list callback) :
  ∀ w, is_Some (foldl (Backbone.invoke (Backbone.set 1) val) (Some w) cbs).
Proof.
  induction cbs as [|cb cbs IH]; intros w; [eexists; reflexivity|].
  cbn [foldl]. destruct (invoke_total val w cb) as [w' ->]. apply IH.
Qed.

(** Every outside call returns: two levels of fuel always suffice. *)
Lemma setChecked_total (val : list string) (w : World) :
  is_Some (setChecked val w).
Proof.
  unfold setChecked.
  change (is_Some (Backbone.set_body (Backbone.set 1) val false w)).
  unfold Backbone.set_body.
  destruct (negb _).
  - unfold Backbone.trigger_change_checked.
    match goal with |- context [foldl ?f (Some ?x) ?l] =>
      destruct (foldl_invoke_total val l x) as [w' ->] end.
    cbn [mbind option_bind].
    match goal with |- is_Some (if ?b then _ else _) => destruct b end;
      eexists; reflexivity.
  - cbn [mbind option_bind].
    match goal with |- is_Some (if ?b then _ else _) => destruct b end;
      eexists; reflexivity.
Qed.

(** ** An outside call that differs from the stored list *)

Ltac proj_simpl :=
  repeat (progress (
    unfold record, with_model, with_el, with_pending, with_changing,
      getChecked, getOptions, previous_checked, Backbone.trigger_change,
      ControlColorView.render in *;
    cbn [heap model el log attributes _previousAttributes _changing _pending
         _events options checked mbind option_bind fmap option_fmap option_map
         foldl fst snd negb Underscore.contains_undef] in * )).

(** What the model stores once [updateChecked] has run is the rule of the
    specification. *)
Lemma updateChecked_reconcile (prev val : list string) :
  (if Underscore.contains val "all"
   then if Underscore.contains prev "all"
        then Underscore.without val "all" else ["all"]
   else val) = spec_reconcile prev val.
Proof. reflexivity. Qed.

Lemma setChecked_changed (bound : bool) (val : list string) (w : World) :
  at_rest w → _events (model w) = listeners bound → val ≠ getChecked w →
  setChecked val w =
  Some (mkWorld (heap w)
          (mkModel (Attrs (options (attributes (model w)))
                          (spec_reconcile (getChecked w) val))
                   (Some (attributes (model w))) false false
                   (_events (model w)))
          (if bound
           then ControlColorView.items (getOptions w)
                                       (spec_reconcile (getChecked w) val)
           else el w)
          (log w ++ notified bound (getChecked w) val)).
Proof.
  destruct w as [h [[o c] p ch pe evs] e lg].
  unfold at_rest, listeners. proj_simpl. intros [-> ->] -> Hne.
  unfold setChecked.
  change (Backbone.set 2 val false ?W)
    with (Backbone.set_body (Backbone.set 1) val false W).
  unfold Backbone.set_body. proj_simpl.
  unfold Underscore.isEqual. rewrite bool_decide_false by congruence.
  proj_simpl. unfold Backbone.trigger_change_checked. proj_simpl.
  unfold Backbone.invoke. proj_simpl.
  unfold ControlColor.updateChecked, notified, spec_reconcile, Underscore.contains,
    Underscore.without.
  proj_simpl.
  destruct (bool_decide ("all" ∈ val)); [rewrite set_silent|];
    destruct bound; proj_simpl;
    repeat rewrite <- app_assoc; reflexivity.
Qed.

(** The same list again: nothing is triggered. *)
Lemma setChecked_same (val : list string) (w : World) :
  at_rest w → val = getChecked w →
  setChecked val w =
  Some (mkWorld (heap w)
          (mkModel (attributes (model w)) (Some (attributes (model w)))
                   false false (_events (model w)))
          (el w)
          (log w ++ [ev_set val false])).
Proof.
  destruct w as [h [[o c] p ch pe evs] e lg].
  unfold at_rest. proj_simpl. intros [-> ->] ->.
  unfold setChecked.
  change (Backbone.set 2 c false ?W)
    with (Backbone.set_body (Backbone.set 1) c false W).
  unfold Backbone.set_body. proj_simpl.
  unfold Underscore.isEqual. rewrite bool_decide_true by reflexivity.
  reflexivity.
Qed.

(** ** Construction *)

Lemma new_ControlColor_at_rest (a : ControlColor.Args) (h : gmap loc (list string)) :
  at_rest (standalone (new_ControlColor a h)).
Proof. split; reflexivity. Qed.

Lemma new_ControlColor_listeners (a : ControlColor.Args) (h : gmap loc (list string)) :
  _events (model (standalone (new_ControlColor a h))) = listeners false.
Proof. reflexivity. Qed.

Lemma new_ControlColorView_at_rest (children : list node)
    (a : ControlColor.Args) (h : gmap loc (list string)) :
  at_rest (new_ControlColorView children (new_ControlColor a h)).
Proof. split; reflexivity. Qed.

Lemma new_ControlColorView_bound (children : list node)
    (a : ControlColor.Args) (h : gmap loc (list string)) :
  view_bound (new_ControlColorView children (new_ControlColor a h)).
Proof. reflexivity. Qed.

Lemma is_ControlColor_listeners (w : World) :
  is_ControlColor w ↔ ∃ bound, _events (model w) = listeners bound.
Proof.
  split.
  - intros [H|H]; [exists false|exists true]; exact H.
  - intros [[] H]; [right|left]; exact H.
Qed.

(** The array behind the constructor's [options] after [push]. *)
Lemma new_ControlColor_heap (a : ControlColor.Args) (h : gmap loc (list string))
    (L : list string) :
  h !! ControlColor.defaulted_options a = Some L →
  (new_ControlColor a h).2 !! ControlColor.defaulted_options a = Some (L ++ ["all"]).
Proof.
  intros H. unfold new_ControlColor, ControlColor.initialize, push. cbn [snd].
  rewrite lookup_alter_eq, H. reflexivity.
Qed.

Lemma new_ControlColor_getOptions (a : ControlColor.Args)
    (h : gmap loc (list string)) (L : list string) :
  h !! ControlColor.defaulted_options a = Some L →
  getOptions (standalone (new_ControlColor a h)) = L ++ ["all"].
Proof.
  intros H. unfold getOptions, deref.
  change (options (attributes (model (standalone (new_ControlColor a h)))))
    with (ControlColor.defaulted_options a).
  change (heap (standalone (new_ControlColor a h))) with (new_ControlColor a h).2.
  rewrite (new_ControlColor_heap a h L H). reflexivity.
Qed.

(** ** Preservation by an outside call *)

Lemma setChecked_preserves (val : list string) (w : World) :
  at_rest w → is_ControlColor w →
  ∃ w', setChecked val w = Some w' ∧ at_rest w' ∧
        _events (model w') = _events (model w) ∧
        heap w' = heap w ∧
        options (attributes (model w')) = options (attributes (model w)) ∧
        getChecked w' = (if Underscore.isEqual (getChecked w) val
                         then val else spec_reconcile (getChecked w) val).
Proof.
  intros Hrest Hcc. apply is_ControlColor_listeners in Hcc as [bound Hev].
  unfold Underscore.isEqual. case_bool_decide as Heq.
  - rewrite (setChecked_same val w Hrest (eq_sym Heq)).
    eexists; split; [reflexivity|]. repeat split. exact Heq.
  - rewrite (setChecked_changed bound val w Hrest Hev) by congruence.
    eexists; split; [reflexivity|]. repeat split.
Qed.

Lemma spec_reconcile_exclusive (previous newChecked : list string) :
  all_exclusive (spec_reconcile previous newChecked).
Proof.
  unfold spec_reconcile, all_exclusive.
  case_bool_decide as Hnew.
  - case_bool_decide as Hprev; [|left; reflexivity].
    right. rewrite list_elem_of_filter. tauto.
  - right. exact Hnew.
Qed.

(** ** The repository's tests, replayed on the embedding *)

(** tests/models: "Model has required properties" and "Checked array is
    handled properly", first assertion. *)
Example test_model_defaults :
  getOptions fresh = ["all"] ∧ getChecked fresh = ["all"].
Proof. split; reflexivity. Qed.

(** tests/models: "Model is instantiated with correct options". *)
Example test_model_options :
  getOptions (standalone (new_ControlColor (ControlColor.mkArgs (Some 1) None)
                                           caller_heap))
  = ["red"; "green"; "blue"; "all"].
Proof. reflexivity. Qed.

(** tests/models: "Checked array is handled properly", the two [set] calls. *)
Example test_model_checked :
  getChecked (built_with ["red"; "green"]) = ["red"; "green"] ∧
  ∃ w1 w2,
    setChecked ["all"; "red"; "green"] (built_with ["red"; "green"]) = Some w1 ∧
    getChecked w1 = ["all"] ∧
    setChecked ["all"; "blue"] w1 = Some w2 ∧
    getChecked w2 = ["blue"].
Proof.
  split; [reflexivity|]. eexists. eexists.
  split; [vm_compute; reflexivity|]. split; [reflexivity|].
  split; [vm_compute; reflexivity|]. reflexivity.
Qed.

(** tests/views: three checkboxes, still three after rendering again, with
    the values of the options, red and blue checked. *)
Example test_view_markup :
  length (el test_view) = 3 ∧
  length (el (ControlColorView.render test_view)) = 3 ∧
  ControlColorView.pluck_value (el test_view) = ["red"; "green"; "blue"] ∧
  ControlColorView.pluck_value
    (filter (λ n, ControlColorView.selected n = true) (el test_view))
  = ["red"; "blue"].
Proof. repeat split. Qed.

(** tests/views: "State of the view is bound to the model". *)
Example test_view_bound_to_model :
  ∃ w', setChecked ["green"] test_view = Some w' ∧
        ControlColorView.pluck_value
          (filter (λ n, ControlColorView.selected n = true) (el w'))
        = ["green"].
Proof. eexists. split; [vm_compute; reflexivity|]. reflexivity. Qed.

(** tests/views: "View sets attributes on the model". *)
Example test_view_sets_model :
  ∃ w', fire_change (prop_checked "red" false test_view) = Some w' ∧
        getChecked w' = ["blue"].
Proof. eexists. split; [vm_compute; reflexivity|]. reflexivity. Qed.

(** Checking "all" in the rendered view of a [ControlColor] whose checked
    list is blue, red: one trigger, the silent correction, one [render]. *)
Example color_view_check_all :
  ∃ w', fire_change (prop_checked "all" true color_view) = Some w' ∧
        getChecked w' = ["all"] ∧
        log w' = [ev_set ["red"; "blue"; "all"] false;
                  ev_trigger "change:checked" (Some ["red"; "blue"; "all"]);
                  ev_call cb_updateChecked ["red"; "blue"; "all"];
                  ev_set ["all"] true;
                  ev_call cb_render ["red"; "blue"; "all"];
                  ev_trigger "change" None] ∧
        el w' = [input_checkbox "red" false; input_checkbox "green" false;
                 input_checkbox "blue" false; input_checkbox "all" true].
Proof. eexists. split; [vm_compute; reflexivity|]. repeat split. Qed.

(** ** The claims about [setChecked] *)

(** C1, as the specification words it, fails: on a model whose checked list is
    ["all"], [setChecked(["all"])] leaves ["all"] stored, where the reference
    rule (2a) would give the empty list.  Backbone triggers ['change:checked']
    only when the new value is not deep-equal to the stored one, so
    [updateChecked] does not run. *)
Lemma C1_counterexample :
  at_rest fresh ∧ is_ControlColor fresh ∧ getChecked fresh = ["all"] ∧
  ∃ w', setChecked ["all"] fresh = Some w' ∧
        getChecked w' = ["all"] ∧
        spec_reconcile (getChecked fresh) ["all"] = [] ∧
        getChecked w' ≠ spec_reconcile (getChecked fresh) ["all"].
Proof.
  split; [split; reflexivity|].
  split; [left; reflexivity|].
  split; [reflexivity|].
  eexists. split; [vm_compute; reflexivity|].
  split; [reflexivity|].
  split; [reflexivity|].
  vm_compute. discriminate.
Qed.

(** C1 (amended): a call of [setChecked(newChecked)] on a [ControlColor] at
    rest returns, and the checked list stored afterwards is the reference
    reconciliation of the previous list and [newChecked] whenever
    [newChecked] is not deep-equal to the stored list; when it is deep-equal,
    the list is stored as it is, without reconciliation. *)
Theorem C1_setChecked_reconciles (val : list string) (w : World) :
  at_rest w → is_ControlColor w →
  ∃ w', setChecked val w = Some w' ∧
        (val ≠ getChecked w →
         getChecked w' = spec_reconcile (getChecked w) val) ∧
        (val = getChecked w → getChecked w' = getChecked w).
Proof.
  intros Hrest Hcc.
  destruct (setChecked_preserves val w Hrest Hcc) as (w' & Hset & _ & _ & _ & _ & Hc).
  exists w'. split; [exact Hset|].
  unfold Underscore.isEqual in Hc. case_bool_decide as Heq; split.
  - intros Hne. congruence.
  - intros _. congruence.
  - intros _. exact Hc.
  - intros Heq'. congruence.
Qed.

Lemma C1_setChecked_reconciles_witness :
  at_rest fresh ∧ is_ControlColor fresh ∧
  ∃ w', setChecked ["red"; "all"] fresh = Some w' ∧
        (["red"; "all"] ≠ getChecked fresh →
         getChecked w' = spec_reconcile (getChecked fresh) ["red"; "all"]) ∧
        (["red"; "all"] = getChecked fresh → getChecked w' = getChecked fresh).
Proof.
  split; [split; reflexivity|].
  split; [left; reflexivity|].
  apply (C1_setChecked_reconciles ["red"; "all"] fresh).
  - split; reflexivity.
  - left; reflexivity.
Defined.

(** C2, as the specification words it, fails: a [ControlColor] built with
    checked ["all"; "red"] keeps that list, and [setChecked(["all"; "red"])]
    is then deep-equal to the stored list, triggers nothing, and leaves "all"
    stored together with "red". *)
Lemma C2_counterexample :
  at_rest (built_with ["all"; "red"]) ∧
  is_ControlColor (built_with ["all"; "red"]) ∧
  ∃ w', setChecked_all [["all"; "red"]] (built_with ["all"; "red"]) = Some w' ∧
        getChecked w' = ["all"; "red"] ∧
        ¬ all_exclusive (getChecked w').
Proof.
  split; [split; reflexivity|].
  split; [left; reflexivity|].
  eexists. split; [vm_compute; reflexivity|].
  split; [reflexivity|].
  intros [Hex|Hex]; [discriminate Hex|].
  apply Hex. left.
Qed.

(** C2 (amended): whatever a [ControlColor] at rest holds when the call is
    made, a [setChecked] whose argument is not deep-equal to the stored list
    returns and stores the reconciled list, which is exactly ["all"] or
    does not contain "all": such a call never leaves "all" stored together
    with other identifiers. *)
Theorem C2_changing_call_leaves_all_exclusive (val : list string) (w : World) :
  at_rest w → is_ControlColor w → val ≠ getChecked w →
  ∃ w', setChecked val w = Some w' ∧
        getChecked w' = spec_reconcile (getChecked w) val ∧
        all_exclusive (getChecked w').
Proof.
  intros Hrest Hcc Hne.
  destruct (setChecked_preserves val w Hrest Hcc) as (w' & Hset & _ & _ & _ & _ & Hc).
  unfold Underscore.isEqual in Hc.
  rewrite bool_decide_false in Hc by congruence.
  exists w'. split; [exact Hset|]. split; [exact Hc|].
  rewrite Hc. apply spec_reconcile_exclusive.
Qed.

Lemma C2_changing_call_leaves_all_exclusive_witness :
  at_rest (built_with ["all"; "red"]) ∧
  is_ControlColor (built_with ["all"; "red"]) ∧
  ["all"; "blue"] ≠ getChecked (built_with ["all"; "red"]) ∧
  ∃ w', setChecked ["all"; "blue"] (built_with ["all"; "red"]) = Some w' ∧
        getChecked w'
          = spec_reconcile (getChecked (built_with ["all"; "red"])) ["all"; "blue"] ∧
        all_exclusive (getChecked w').
Proof.
  assert (Hne : ["all"; "blue"] ≠ getChecked (built_with ["all"; "red"]))
    by discriminate.
  split; [split; reflexivity|].
  split; [left; reflexivity|].
  split; [exact Hne|].
  apply (C2_changing_call_leaves_all_exclusive ["all"; "blue"]
                                               (built_with ["all"; "red"])).
  - split; reflexivity.
  - left; reflexivity.
  - exact Hne.
Defined.

(** C3, as the specification words it, fails: from a checked list ["all"],
    [setChecked(["all"; "red"; "green"])] finds "all" in the previous list
    and therefore drops it (rule 2a), storing ["red"; "green"]; the next call
    with ["all"; "blue"] then finds no "all" before and stores ["all"]. *)
Lemma C3_counterexample :
  at_rest fresh ∧ is_ControlColor fresh ∧ getChecked fresh = ["all"] ∧
  ∃ w1 w2, setChecked ["all"; "red"; "green"] fresh = Some w1 ∧
           getChecked w1 = ["red"; "green"] ∧
           getChecked w1 ≠ ["all"] ∧
           setChecked ["all"; "blue"] w1 = Some w2 ∧
           getChecked w2 = ["all"] ∧
           getChecked w2 ≠ ["blue"].
Proof.
  split; [split; reflexivity|].
  split; [left; reflexivity|].
  split; [reflexivity|].
  eexists. eexists.
  split; [vm_compute; reflexivity|].
  split; [reflexivity|].
  split; [discriminate|].
  split; [vm_compute; reflexivity|].
  split; [reflexivity|].
  discriminate.
Qed.

(** C3 (amended): starting from a [ControlColor] at rest whose checked list
    is ["red"; "green"], [setChecked(["all"; "red"; "green"])] stores ["all"],
    and a following [setChecked(["all"; "blue"])] stores ["blue"]. *)
Theorem C3_all_then_blue (w : World) :
  at_rest w → is_ControlColor w → getChecked w = ["red"; "green"] →
  ∃ w1 w2, setChecked ["all"; "red"; "green"] w = Some w1 ∧
           getChecked w1 = ["all"] ∧
           setChecked ["all"; "blue"] w1 = Some w2 ∧
           getChecked w2 = ["blue"].
Proof.
  intros Hrest Hcc Hc.
  destruct (setChecked_preserves ["all"; "red"; "green"] w Hrest Hcc)
    as (w1 & Hset1 & Hrest1 & Hev1 & _ & _ & Hc1).
  assert (Hcc1 : is_ControlColor w1)
    by (unfold is_ControlColor in *; rewrite Hev1; exact Hcc).
  destruct (setChecked_preserves ["all"; "blue"] w1 Hrest1 Hcc1)
    as (w2 & Hset2 & _ & _ & _ & _ & Hc2).
  exists w1, w2.
  rewrite Hc in Hc1. change (getChecked w1 = ["all"]) in Hc1.
  rewrite Hc1 in Hc2. change (getChecked w2 = ["blue"]) in Hc2.
  repeat split; assumption.
Qed.

Lemma C3_all_then_blue_witness :
  at_rest (built_with ["red"; "green"]) ∧
  is_ControlColor (built_with ["red"; "green"]) ∧
  getChecked (built_with ["red"; "green"]) = ["red"; "green"] ∧
  ∃ w1 w2, setChecked ["all"; "red"; "green"] (built_with ["red"; "green"])
             = Some w1 ∧
           getChecked w1 = ["all"] ∧
           setChecked ["all"; "blue"] w1 = Some w2 ∧
           getChecked w2 = ["blue"].
Proof.
  split; [split; reflexivity|].
  split; [left; reflexivity|].
  split; [reflexivity|].
  apply (C3_all_then_blue (built_with ["red"; "green"])).
  - split; reflexivity.
  - left; reflexivity.
  - reflexivity.
Defined.

(** C10: on a model at rest, [setChecked] with a list deep-equal to the
    stored one returns and changes nothing that can be read back: the
    checked list, the options, the heap and the rendered controls are as
    before, and the log grows by the call itself only, so nothing was
    triggered and no listener was invoked. *)
Theorem C10_setChecked_same_is_noop (val : list string) (w : World) :
  at_rest w → Underscore.isEqual (getChecked w) val = true →
  ∃ w', setChecked val w = Some w' ∧
        getChecked w' = getChecked w ∧
        getOptions w' = getOptions w ∧
        heap w' = heap w ∧
        el w' = el w ∧
        _events (model w') = _events (model w) ∧
        log w' = log w ++ [ev_set val false].
Proof.
  intros Hrest Heq. unfold Underscore.isEqual in Heq.
  apply bool_decide_eq_true in Heq.
  rewrite (setChecked_same val w Hrest (eq_sym Heq)).
  eexists. split; [reflexivity|]. repeat split.
Qed.

Lemma C10_setChecked_same_is_noop_witness :
  at_rest (built_with ["blue"; "red"]) ∧
  Underscore.isEqual (getChecked (built_with ["blue"; "red"])) ["blue"; "red"]
    = true ∧
  ∃ w', setChecked ["blue"; "red"] (built_with ["blue"; "red"]) = Some w' ∧
        getChecked w' = getChecked (built_with ["blue"; "red"]) ∧
        getOptions w' = getOptions (built_with ["blue"; "red"]) ∧
        heap w' = heap (built_with ["blue"; "red"]) ∧
        el w' = el (built_with ["blue"; "red"]) ∧
        _events (model w') = _events (model (built_with ["blue"; "red"])) ∧
        log w' = log (built_with ["blue"; "red"]) ++ [ev_set ["blue"; "red"] false].
Proof.
  split; [split; reflexivity|].
  split; [reflexivity|].
  apply (C10_setChecked_same_is_noop ["blue"; "red"] (built_with ["blue"; "red"])).
  - split; reflexivity.
  - reflexivity.
Defined.

(** ** The claims about construction *)

Lemma filter_all_absent (L : list string) :
  "all" ∉ L → filter (λ x, x = "all") L = [].
Proof.
  induction L as [|x L IH]; intros Hnot; [reflexivity|].
  apply not_elem_of_cons in Hnot as [Hne Hnot].
  rewrite filter_cons_False by congruence. apply IH, Hnot.
Qed.

(** C4: when the caller's options array holds a list [L] without "all", the
    model built from it reads back [L] followed by "all": every element of
    [L] is there, "all" is last, and "all" occurs exactly once. *)
Theorem C4_options_end_with_one_all (h : gmap loc (list string)) (l : loc)
    (L : list string) (c : option (list string)) :
  h !! l = Some L → "all" ∉ L →
  let w := standalone (new_ControlColor (ControlColor.mkArgs (Some l) c) h) in
  getOptions w = L ++ ["all"] ∧
  L ⊆ getOptions w ∧
  last (getOptions w) = Some "all" ∧
  length (filter (λ x, x = "all") (getOptions w)) = 1.
Proof.
  intros Hl Hnot w.
  assert (Hopts : getOptions w = L ++ ["all"])
    by (apply (new_ControlColor_getOptions (ControlColor.mkArgs (Some l) c) h L Hl)).
  rewrite Hopts. split; [reflexivity|]. split; [|split].
  - intros x Hx. apply elem_of_app. left. exact Hx.
  - apply last_snoc.
  - rewrite filter_app, (filter_all_absent L Hnot). reflexivity.
Qed.

Lemma C4_options_end_with_one_all_witness :
  caller_heap !! 1 = Some ["red"; "green"; "blue"] ∧
  ("all" ∉ ["red"; "green"; "blue"]) ∧
  let w := standalone (new_ControlColor (ControlColor.mkArgs (Some 1) None)
                                        caller_heap) in
  getOptions w = ["red"; "green"; "blue"] ++ ["all"] ∧
  ["red"; "green"; "blue"] ⊆ getOptions w ∧
  last (getOptions w) = Some "all" ∧
  length (filter (λ x, x = "all") (getOptions w)) = 1.
Proof.
  pose (h := caller_heap).
  assert (Hl : h !! 1 = Some ["red"; "green"; "blue"]) by reflexivity.
  assert (Hnot : "all" ∉ ["red"; "green"; "blue"]).
  { apply (bool_decide_unpack _). vm_compute. exact I. }
  split; [exact Hl|]. split; [exact Hnot|].
  exact (C4_options_end_with_one_all h 1 ["red"; "green"; "blue"] None Hl Hnot).
Defined.

(** C5, as the specification words it, fails: the Backbone constructor stores
    the attributes before [initialize] registers [updateChecked], so a model
    built with checked ["all"; "red"] reads back ["all"; "red"]. *)
Lemma C5_counterexample :
  getChecked (built_with ["all"; "red"]) = ["all"; "red"] ∧
  "all" ∈ getChecked (built_with ["all"; "red"]) ∧
  "red" ∈ getChecked (built_with ["all"; "red"]) ∧
  ¬ all_exclusive (getChecked (built_with ["all"; "red"])).
Proof.
  split; [reflexivity|].
  split; [apply (bool_decide_unpack _); vm_compute; exact I|].
  split; [apply (bool_decide_unpack _); vm_compute; exact I|].
  intros [Hex|Hex]; [discriminate Hex|].
  apply Hex. left.
Qed.

(** When the checked array is not the options array, it comes out of the
    constructor as it went in: that is the construction [new_ControlColor]
    describes, with the content of the array for its checked list. *)
Lemma by_reference_own_array (o c : option loc)
    (h : gmap loc (list string)) (C : list string) :
  h !! default ByReference.defaults_checked c = Some C →
  default ByReference.defaults_checked c
    ≠ default ControlColor.defaults_options o →
  ByReference.new_ControlColor o c h
  = new_ControlColor (ControlColor.mkArgs o (Some C)) h.
Proof.
  intros HC Hne.
  unfold ByReference.new_ControlColor, new_ControlColor, ControlColor.initialize,
    ControlColor.defaulted_options, ControlColor.defaulted_checked, deref, push.
  cbn [ControlColor.arg_options ControlColor.arg_checked options
       ControlColor.defaults].
  rewrite lookup_alter_ne by (intros Heq; apply Hne; symmetry; exact Heq).
  rewrite HC. reflexivity.
Qed.

(** [new ControlColor()] with both arrays of [defaults] in the heap. *)
Example by_reference_defaults :
  ByReference.new_ControlColor None None ByReference.heap0
  = new_ControlColor (ControlColor.mkArgs None None) ByReference.heap0 ∧
  getChecked (standalone (ByReference.new_ControlColor None None ByReference.heap0))
  = ["all"] ∧
  getOptions (standalone (ByReference.new_ControlColor None None ByReference.heap0))
  = ["all"].
Proof. repeat split. Qed.

(** C5 (amended): construction applies no reconciliation.  With [L] in the
    array given as options and [C] in the array given as checked (the
    arrays of [defaults] where none is given), the checked list read right
    after construction is what the checked array then holds: [C] as
    supplied, or [C] followed by "all" when the same array was given for
    both attributes, since [initialize] pushes onto it.  Only
    [updateChecked] listens and it has not run. *)
Theorem C5_constructor_applies_no_reconciliation (o c : option loc)
    (h : gmap loc (list string)) (L C : list string) :
  h !! default ControlColor.defaults_options o = Some L →
  h !! default ByReference.defaults_checked c = Some C →
  let w := standalone (ByReference.new_ControlColor o c h) in
  getChecked w
    = (if bool_decide (default ByReference.defaults_checked c
                       = default ControlColor.defaults_options o)
       then C ++ ["all"] else C) ∧
  getChecked w = deref (heap w) (default ByReference.defaults_checked c) ∧
  getOptions w = L ++ ["all"] ∧
  _events (model w) = [cb_updateChecked] ∧
  log w = [].
Proof.
  intros HL HC w.
  assert (Hheap : heap w = push (default ControlColor.defaults_options o) "all" h)
    by reflexivity.
  assert (Hc : getChecked w = deref (heap w) (default ByReference.defaults_checked c))
    by reflexivity.
  split; [|split; [exact Hc|split; [|split; reflexivity]]].
  - rewrite Hc, Hheap. unfold deref, push. case_bool_decide as Heq.
    + rewrite Heq, lookup_alter_eq. rewrite Heq in HC. rewrite HC. reflexivity.
    + rewrite lookup_alter_ne by congruence. rewrite HC. reflexivity.
  - unfold getOptions, deref.
    change (options (attributes (model w)))
      with (default ControlColor.defaults_options o).
    rewrite Hheap. unfold push. rewrite lookup_alter_eq, HL. reflexivity.
Qed.

Lemma C5_constructor_applies_no_reconciliation_witness :
  caller_heap !! default ControlColor.defaults_options (Some 1)
    = Some ["red"; "green"; "blue"] ∧
  caller_heap !! default ByReference.defaults_checked (Some 1)
    = Some ["red"; "green"; "blue"] ∧
  let w := standalone (ByReference.new_ControlColor (Some 1) (Some 1) caller_heap) in
  getChecked w
    = (if bool_decide (default ByReference.defaults_checked (Some 1)
                       = default ControlColor.defaults_options (Some 1))
       then ["red"; "green"; "blue"] ++ ["all"] else ["red"; "green"; "blue"]) ∧
  getChecked w = deref (heap w) (default ByReference.defaults_checked (Some 1)) ∧
  getOptions w = ["red"; "green"; "blue"] ++ ["all"] ∧
  _events (model w) = [cb_updateChecked] ∧
  log w = [].
Proof.
  assert (H1 : caller_heap !! default ControlColor.defaults_options (Some 1)
               = Some ["red"; "green"; "blue"]) by reflexivity.
  assert (H2 : caller_heap !! default ByReference.defaults_checked (Some 1)
               = Some ["red"; "green"; "blue"]) by reflexivity.
  split; [exact H1|]. split; [exact H2|].
  exact (C5_constructor_applies_no_reconciliation (Some 1) (Some 1) caller_heap
           ["red"; "green"; "blue"] ["red"; "green"; "blue"] H1 H2).
Defined.

(** C9: the constructor pushes "all" onto the very array it was handed.
    With [l] the caller's options array holding [L], the array at [l] holds
    [L] followed by "all" after construction, which the caller sees through
    [l].  With no options given, the array of [defaults], holding [D], is the
    one extended; a second model built with no options extends it again, and
    both models, sharing that array, then read "all" twice after [D]. *)
Theorem C9_constructor_pushes_in_place (h : gmap loc (list string)) (l : loc)
    (L D : list string) (c c' : option (list string)) :
  h !! l = Some L → h !! ControlColor.defaults_options = Some D →
  (new_ControlColor (ControlColor.mkArgs (Some l) c) h).2 !! l
    = Some (L ++ ["all"]) ∧
  let first := new_ControlColor (ControlColor.mkArgs None c) h in
  let second := new_ControlColor (ControlColor.mkArgs None c') first.2 in
  first.2 !! ControlColor.defaults_options = Some (D ++ ["all"]) ∧
  getOptions (standalone first) = D ++ ["all"] ∧
  second.2 !! ControlColor.defaults_options = Some (D ++ ["all"; "all"]) ∧
  getOptions (standalone second) = D ++ ["all"; "all"] ∧
  deref second.2 (options (attributes first.1)) = D ++ ["all"; "all"].
Proof.
  intros HL HD.
  split; [exact (new_ControlColor_heap (ControlColor.mkArgs (Some l) c) h L HL)|].
  intros first second.
  assert (H1 : first.2 !! ControlColor.defaults_options = Some (D ++ ["all"]))
    by exact (new_ControlColor_heap (ControlColor.mkArgs None c) h D HD).
  assert (H2 : second.2 !! ControlColor.defaults_options
               = Some ((D ++ ["all"]) ++ ["all"]))
    by exact (new_ControlColor_heap (ControlColor.mkArgs None c') first.2 _ H1).
  rewrite <- app_assoc in H2.
  split; [exact H1|]. split; [|split; [exact H2|split]].
  - exact (new_ControlColor_getOptions (ControlColor.mkArgs None c) h D HD).
  - unfold getOptions, deref.
    change (heap (standalone second)) with second.2.
    change (options (attributes (model (standalone second))))
      with ControlColor.defaults_options.
    rewrite H2. reflexivity.
  - unfold deref.
    change (options (attributes first.1)) with ControlColor.defaults_options.
    rewrite H2. reflexivity.
Qed.

Lemma C9_constructor_pushes_in_place_witness :
  caller_heap !! 1 = Some ["red"; "green"; "blue"] ∧
  caller_heap !! ControlColor.defaults_options = Some [] ∧
  (new_ControlColor (ControlColor.mkArgs (Some 1) None) caller_heap).2 !! 1
    = Some (["red"; "green"; "blue"] ++ ["all"]) ∧
  let first := new_ControlColor (ControlColor.mkArgs None None) caller_heap in
  let second := new_ControlColor (ControlColor.mkArgs None None) first.2 in
  first.2 !! ControlColor.defaults_options = Some ([] ++ ["all"]) ∧
  getOptions (standalone first) = [] ++ ["all"] ∧
  second.2 !! ControlColor.defaults_options = Some ([] ++ ["all"; "all"]) ∧
  getOptions (standalone second) = [] ++ ["all"; "all"] ∧
  deref second.2 (options (attributes first.1)) = [] ++ ["all"; "all"].
Proof.
  pose (h := caller_heap).
  assert (HL : h !! 1 = Some ["red"; "green"; "blue"]) by reflexivity.
  assert (HD : h !! ControlColor.defaults_options = Some []) by reflexivity.
  split; [exact HL|]. split; [exact HD|].
  exact (C9_constructor_pushes_in_place h 1 ["red"; "green"; "blue"] [] None None
           HL HD).
Defined.

(** ** The log only grows *)


Lemma foldl_invoke_None (val : list string) (cbs : list callback) :
  foldl (Backbone.invoke (Backbone.set 1) val) None cbs = None.
Proof. induction cbs as [|cb cbs IH]; [reflexivity|exact IH]. Qed.



(** ** The claims about the view *)

(** C7: after [render], whatever the element held before, its children are
    the controls of the options, in order: the control at each position
    carries the option at that position and is checked exactly when the
    option is in the checked list; there are as many controls as options;
    the model is untouched; and rendering again gives the same world, hence
    the same number of controls. *)
Theorem C7_render_replaces_controls (w : World) (i : nat) :
  let w1 := ControlColorView.render w in
  el w1 = map (λ o, input_checkbox o (bool_decide (o ∈ getChecked w))) (getOptions w) ∧
  el w1 !! i
    = (λ o, input_checkbox o (bool_decide (o ∈ getChecked w))) <$> getOptions w !! i ∧
  length (el w1) = length (getOptions w) ∧
  getChecked w1 = getChecked w ∧
  getOptions w1 = getOptions w ∧
  ControlColorView.render w1 = w1 ∧
  length (el (ControlColorView.render w1)) = length (el w1).
Proof.
  intros w1.
  assert (Hel : el w1 = map (λ o, input_checkbox o (bool_decide (o ∈ getChecked w)))
                            (getOptions w)) by reflexivity.
  split; [exact Hel|]. split; [|split].
  - rewrite Hel. apply list_lookup_fmap.
  - rewrite Hel. apply length_map.
  - repeat split.
Qed.



Lemma notified_counts (prev val : list string) :
  count_events (is_call cb_render) (notified true prev val) = 1 ∧
  count_events (is_call cb_updateChecked) (notified true prev val) = 1 ∧
  count_events (is_trigger "change:checked") (notified true prev val) = 1 ∧
  count_events (is_trigger "change") (notified true prev val) = 1.
Proof.
  unfold notified. destruct (Underscore.contains val "all"); repeat split.
Qed.

(** C6, as the specification words it, fails: what a subscriber is handed
    is the list as the caller passed it.  On the rendered view of a
    [ControlColor] whose checked list is blue, red, [setChecked] with blue,
    red, all stores ["all"], and [render] is called once, with blue, red,
    all as the event's value and never with ["all"]. *)
Lemma C6_counterexample :
  at_rest color_view ∧ view_bound color_view ∧
  ∃ w', setChecked ["blue"; "red"; "all"] color_view = Some w' ∧
        getChecked w' = ["all"] ∧
        getChecked w' ≠ getChecked color_view ∧
        log w' = [ev_set ["blue"; "red"; "all"] false;
                  ev_trigger "change:checked" (Some ["blue"; "red"; "all"]);
                  ev_call cb_updateChecked ["blue"; "red"; "all"];
                  ev_set ["all"] true;
                  ev_call cb_render ["blue"; "red"; "all"];
                  ev_trigger "change" None] ∧
        ev_call cb_render ["blue"; "red"; "all"] ∈ log w' ∧
        ev_call cb_render ["all"] ∉ log w'.
Proof.
  split; [split; reflexivity|].
  split; [reflexivity|].
  eexists. split; [vm_compute; reflexivity|].
  split; [reflexivity|]. split; [discriminate|]. split; [reflexivity|].
  split; apply (bool_decide_unpack _); vm_compute; exact I.
Qed.

(** C6 (amended): on a [ControlColor] at rest with the view bound, an
    outside [setChecked] whose argument is not deep-equal to the stored list
    returns and changes the stored list, and what it adds to the log is, in
    this order: the call, one trigger of ['change:checked'], the call of
    [updateChecked], its silent corrective [set] when the argument holds
    "all" (which triggers nothing), one call of [render], one trigger of
    ['change'].  [render] is handed the caller's list as the event's value,
    but runs after the correction and reads the model: the controls it
    leaves are those of the reconciled list. *)
Theorem C6_one_notification_after_reconciliation (val : list string) (w : World) :
  at_rest w → view_bound w → val ≠ getChecked w →
  ∃ w', setChecked val w = Some w' ∧
        getChecked w' ≠ getChecked w ∧
        getChecked w' = spec_reconcile (getChecked w) val ∧
        log w' = log w ++ notified true (getChecked w) val ∧
        count_events (is_trigger "change:checked")
                     (notified true (getChecked w) val) = 1 ∧
        count_events (is_call cb_render) (notified true (getChecked w) val) = 1 ∧
        count_events (is_call cb_updateChecked)
                     (notified true (getChecked w) val) = 1 ∧
        count_events (is_trigger "change") (notified true (getChecked w) val) = 1 ∧
        el w' = ControlColorView.items (getOptions w') (getChecked w').
Proof.
  intros Hrest Hbound Hne.
  rewrite (setChecked_changed true val w Hrest Hbound Hne).
  eexists. split; [reflexivity|].
  cbn [getChecked model attributes checked log el].
  destruct (notified_counts (checked (attributes (model w))) val)
    as (Hr & Hu & Ht & Hc).
  split; [|repeat split; assumption].
  unfold spec_reconcile.
  case_bool_decide as Hv; [|exact Hne].
  case_bool_decide as Hp.
  - intros Heq. rewrite <- Heq in Hp. apply list_elem_of_filter in Hp as [Hp _].
    apply Hp. reflexivity.
  - intros Heq. apply Hp. rewrite <- Heq. apply list_elem_of_here.
Qed.

Lemma C6_one_notification_after_reconciliation_witness :
  at_rest color_view ∧ view_bound color_view ∧
  ["blue"; "red"; "all"] ≠ getChecked color_view ∧
  ∃ w', setChecked ["blue"; "red"; "all"] color_view = Some w' ∧
        getChecked w' ≠ getChecked color_view ∧
        getChecked w'
          = spec_reconcile (getChecked color_view) ["blue"; "red"; "all"] ∧
        log w' = log color_view
                 ++ notified true (getChecked color_view) ["blue"; "red"; "all"] ∧
        count_events (is_trigger "change:checked")
          (notified true (getChecked color_view) ["blue"; "red"; "all"]) = 1 ∧
        count_events (is_call cb_render)
          (notified true (getChecked color_view) ["blue"; "red"; "all"]) = 1 ∧
        count_events (is_call cb_updateChecked)
          (notified true (getChecked color_view) ["blue"; "red"; "all"]) = 1 ∧
        count_events (is_trigger "change")
          (notified true (getChecked color_view) ["blue"; "red"; "all"]) = 1 ∧
        el w' = ControlColorView.items (getOptions w') (getChecked w').
Proof.
  assert (Hne : ["blue"; "red"; "all"] ≠ getChecked color_view) by discriminate.
  split; [split; reflexivity|].
  split; [reflexivity|].
  split; [exact Hne|].
  apply (C6_one_notification_after_reconciliation ["blue"; "red"; "all"] color_view).
  - split; reflexivity.
  - reflexivity.
  - exact Hne.
Defined.

(** What [render] is handed as the event's value is the list as the caller
    passed it; [render] does not read it and takes the checked list from the
    model, which [updateChecked] has corrected by then. *)
Lemma render_is_called_with_the_raw_list (val : list string) (w : World) :
  at_rest w → view_bound w → val ≠ getChecked w →
  ∃ w', setChecked val w = Some w' ∧ ev_call cb_render val ∈ log w'.
Proof.
  intros Hrest Hbound Hne.
  rewrite (setChecked_changed true val w Hrest Hbound Hne).
  eexists. split; [reflexivity|]. cbn [log]. unfold notified.
  rewrite !elem_of_app. right. right. right. left. apply list_elem_of_here.
Qed.


(** * Further properties of the code *)

(** ** What the view reads back from what it rendered *)

Lemma pluck_rendered (f : string → bool) (opts : list string) :
  ControlColorView.pluck_value
    (filter (λ n, ControlColorView.selected n = true)
            (map (λ o, input_checkbox o (f o)) opts))
  = filter (λ o, f o = true) opts.
Proof.
  induction opts as [|o opts IH]; [reflexivity|].
  cbn [map]. destruct (f o) eqn:Hf.
  - rewrite filter_cons_True by reflexivity.
    rewrite (filter_cons_True (λ o, f o = true)) by exact Hf.
    cbn. f_equal. exact IH.
  - rewrite filter_cons_False by (cbn; discriminate).
    rewrite (filter_cons_False (λ o, f o = true)) by (rewrite Hf; discriminate).
    exact IH.
Qed.

Lemma pluck_items_all (opts checked : list string) :
  ControlColorView.pluck_value (ControlColorView.items opts checked) = opts.
Proof.
  induction opts as [|o opts IH]; [reflexivity|].
  cbn. f_equal. exact IH.
Qed.

(** X1: what [handleChange] reads from a fresh rendering.  The values of the
    rendered controls are the options, in order, and the values of the
    checked ones are the options that are in the checked list, in the order
    of the options: checked identifiers that are no option are not shown,
    and the order of the checked list is not kept. *)
Theorem X1_render_then_read (w : World) :
  let w1 := ControlColorView.render w in
  ControlColorView.pluck_value (el w1) = getOptions w ∧
  ControlColorView.pluck_value
    (filter (λ n, ControlColorView.selected n = true) (el w1))
  = filter (λ o, o ∈ getChecked w) (getOptions w) ∧
  fire_change w1
  = setChecked (filter (λ o, o ∈ getChecked w) (getOptions w)) w1.
Proof.
  intros w1.
  assert (Hsel : ControlColorView.pluck_value
                   (filter (λ n, ControlColorView.selected n = true) (el w1))
                 = filter (λ o, o ∈ getChecked w) (getOptions w)).
  { change (el w1) with (map (λ o, input_checkbox o (Underscore.contains (getChecked w) o))
                             (getOptions w)).
    rewrite pluck_rendered. apply list_filter_iff. intros o.
    unfold Underscore.contains. rewrite bool_decide_eq_true. reflexivity. }
  split; [apply pluck_items_all|]. split; [exact Hsel|].
  unfold fire_change, ControlColorView.handleChange. rewrite Hsel. reflexivity.
Qed.

(** ** The view stays bound to the model *)

Lemma setChecked_changed_plain (val : list string) (w : World) :
  at_rest w → plain_bound w → val ≠ getChecked w →
  setChecked val w =
  Some (mkWorld (heap w)
          (mkModel (Attrs (options (attributes (model w))) val)
                   (Some (attributes (model w))) false false
                   (_events (model w)))
          (ControlColorView.items (getOptions w) val)
          (log w ++ [ev_set val false; ev_trigger "change:checked" (Some val);
                     ev_call cb_render val; ev_trigger "change" None])).
Proof.
  destruct w as [h [[o c] p ch pe evs] e lg].
  unfold at_rest, plain_bound. proj_simpl. intros [-> ->] -> Hne.
  unfold setChecked.
  change (Backbone.set 2 val false ?W)
    with (Backbone.set_body (Backbone.set 1) val false W).
  unfold Backbone.set_body. proj_simpl.
  unfold Underscore.isEqual. rewrite bool_decide_false by congruence.
  proj_simpl. unfold Backbone.trigger_change_checked. proj_simpl.
  unfold Backbone.invoke. proj_simpl.
  repeat rewrite <- app_assoc. reflexivity.
Qed.


(** ** A click on a control *)

Lemma el_prop_checked (v : string) (b : bool) (w : World) :
  in_sync w →
  el (prop_checked v b w)
  = map (λ o, input_checkbox o (if bool_decide (o = v) then b
                                 else Underscore.contains (getChecked w) o))
        (getOptions w).
Proof.
  intros Hsync. unfold prop_checked. cbn [el with_el]. rewrite Hsync.
  unfold ControlColorView.items. rewrite map_map. apply map_ext. intros o.
  case_bool_decide; reflexivity.
Qed.

Lemma toggle_submits (v : string) (b : bool) (w : World) :
  in_sync w →
  toggle v b w = setChecked (clicked v b w) (prop_checked v b w).
Proof.
  intros Hsync. unfold toggle, fire_change, ControlColorView.handleChange.
  rewrite (el_prop_checked v b w Hsync), pluck_rendered. reflexivity.
Qed.

(** A click that really flips a control never submits the stored list. *)
Lemma clicked_differs (v : string) (b : bool) (w : World) :
  v ∈ getOptions w → b = negb (Underscore.contains (getChecked w) v) →
  clicked v b w ≠ getChecked w.
Proof.
  intros Hv Hb Heq.
  assert (Hin : v ∈ clicked v b w ↔ b = true).
  { unfold clicked. rewrite list_elem_of_filter.
    rewrite bool_decide_true by reflexivity. tauto. }
  rewrite Heq in Hin. unfold Underscore.contains in Hb.
  destruct b.
  - destruct Hin as [_ Hin]. specialize (Hin eq_refl).
    rewrite bool_decide_true in Hb by exact Hin. discriminate Hb.
  - case_bool_decide as Hc; [|discriminate Hb].
    apply Hin in Hc. discriminate Hc.
Qed.


Lemma filter_only (v : string) (l : list string) :
  NoDup l → v ∈ l → filter (λ o, o = v) l = [v].
Proof.
  induction l as [|x l IH]; intros Hnd Hv; [inversion Hv|].
  apply NoDup_cons in Hnd as [Hx Hnd].
  destruct (decide (x = v)) as [->|Hne].
  - rewrite filter_cons_True by reflexivity. f_equal.
    clear IH Hv Hnd. induction l as [|y l IH]; [reflexivity|].
    apply not_elem_of_cons in Hx as [Hy Hx].
    rewrite filter_cons_False by congruence. apply IH, Hx.
  - rewrite filter_cons_False by congruence.
    apply elem_of_cons in Hv as [Hv|Hv]; [congruence|]. apply IH; assumption.
Qed.

(** X4: on a [ControlColor] with the view bound and in sync, whose options
    carry "all" and whose checked list does not, checking the "all" control
    stores exactly ["all"]: every colour that was checked is dropped, and
    the controls are rebuilt with only "all" checked. *)
Theorem X4_checking_all_clears_the_rest (w : World) :
  at_rest w → view_bound w → in_sync w →
  "all" ∈ getOptions w → "all" ∉ getChecked w →
  ∃ w', toggle "all" true w = Some w' ∧
        getChecked w' = ["all"] ∧
        el w' = map (λ o, input_checkbox o (bool_decide (o = "all"))) (getOptions w).
Proof.
  intros Hrest Hbound Hsync Hopt Hc.
  rewrite (toggle_submits "all" true w Hsync).
  assert (Hin : "all" ∈ clicked "all" true w).
  { unfold clicked. apply list_elem_of_filter. split; [reflexivity|exact Hopt]. }
  assert (Hne : clicked "all" true w ≠ getChecked w) by (intros Heq; congruence).
  rewrite (setChecked_changed true _ (prop_checked "all" true w) Hrest Hbound Hne).
  eexists. split; [reflexivity|].
  assert (Hrec : spec_reconcile (getChecked w) (clicked "all" true w) = ["all"]).
  { unfold spec_reconcile. rewrite bool_decide_true by exact Hin.
    rewrite bool_decide_false by exact Hc. reflexivity. }
  split; [exact Hrec|].
  cbn [el]. change (getChecked (prop_checked "all" true w)) with (getChecked w).
  rewrite Hrec. unfold ControlColorView.items. apply map_ext. intros o.
  f_equal. unfold Underscore.contains. apply bool_decide_ext.
  rewrite list_elem_of_singleton. reflexivity.
Qed.

Lemma X4_checking_all_clears_the_rest_witness :
  at_rest color_view ∧ view_bound color_view ∧ in_sync color_view ∧
  "all" ∈ getOptions color_view ∧ ("all" ∉ getChecked color_view) ∧
  ∃ w', toggle "all" true color_view = Some w' ∧
        getChecked w' = ["all"] ∧
        el w' = map (λ o, input_checkbox o (bool_decide (o = "all")))
                    (getOptions color_view).
Proof.
  assert (Hopt : "all" ∈ getOptions color_view).
  { apply (bool_decide_unpack _). vm_compute. exact I. }
  assert (Hc : "all" ∉ getChecked color_view).
  { apply (bool_decide_unpack _). vm_compute. exact I. }
  split; [split; reflexivity|].
  split; [reflexivity|]. split; [reflexivity|].
  split; [exact Hopt|]. split; [exact Hc|].
  apply (X4_checking_all_clears_the_rest color_view).
  - split; reflexivity.
  - reflexivity.
  - reflexivity.
  - exact Hopt.
  - exact Hc.
Defined.

(** X5: on a [ControlColor] with the view bound and in sync, whose options
    are distinct and carry "all", and whose checked list is ["all"],
    checking a colour stores that colour alone: "all" is dropped. *)
Theorem X5_checking_a_colour_drops_all (v : string) (w : World) :
  at_rest w → view_bound w → in_sync w →
  NoDup (getOptions w) → "all" ∈ getOptions w → getChecked w = ["all"] →
  v ∈ getOptions w → v ≠ "all" →
  ∃ w', toggle v true w = Some w' ∧ getChecked w' = [v] ∧ in_sync w'.
Proof.
  intros Hrest Hbound Hsync Hnd Hopt Hc Hv Hva.
  rewrite (toggle_submits v true w Hsync).
  assert (Hin : "all" ∈ clicked v true w).
  { unfold clicked. apply list_elem_of_filter. split; [|exact Hopt].
    rewrite bool_decide_false by congruence. rewrite Hc. reflexivity. }
  assert (Hvin : v ∈ clicked v true w).
  { unfold clicked. apply list_elem_of_filter. split; [|exact Hv].
    rewrite bool_decide_true by reflexivity. reflexivity. }
  assert (Hne : clicked v true w ≠ getChecked w).
  { intros Heq. rewrite Heq, Hc in Hvin.
    apply list_elem_of_singleton in Hvin. congruence. }
  rewrite (setChecked_changed true _ (prop_checked v true w) Hrest Hbound Hne).
  eexists. split; [reflexivity|].
  assert (Hrec : spec_reconcile (getChecked w) (clicked v true w) = [v]).
  { unfold spec_reconcile. rewrite bool_decide_true by exact Hin.
    rewrite bool_decide_true by (rewrite Hc; apply list_elem_of_here).
    unfold clicked. rewrite list_filter_filter.
    rewrite <- (filter_only v (getOptions w) Hnd Hv).
    apply list_filter_iff. intros o. rewrite Hc. unfold Underscore.contains.
    split.
    - intros [Hoa Hf]. case_bool_decide as Hov; [exact Hov|].
      apply bool_decide_eq_true in Hf. apply list_elem_of_singleton in Hf.
      congruence.
    - intros ->. split; [exact Hva|].
      rewrite bool_decide_true by reflexivity. reflexivity. }
  split; [exact Hrec|].
  unfold in_sync. cbn [el]. reflexivity.
Qed.

Lemma X5_checking_a_colour_drops_all_witness :
  ∃ w0, toggle "all" true color_view = Some w0 ∧
  at_rest w0 ∧ view_bound w0 ∧ in_sync w0 ∧
  NoDup (getOptions w0) ∧ "all" ∈ getOptions w0 ∧ getChecked w0 = ["all"] ∧
  "green" ∈ getOptions w0 ∧ "green" ≠ "all" ∧
  ∃ w', toggle "green" true w0 = Some w' ∧ getChecked w' = ["green"] ∧ in_sync w'.
Proof.
  eexists. split; [vm_compute; reflexivity|].
  assert (Hnd : NoDup ["red"; "green"; "blue"; "all"]).
  { apply (bool_decide_unpack _). vm_compute. exact I. }
  assert (Hopt : "all" ∈ ["red"; "green"; "blue"; "all"]).
  { apply (bool_decide_unpack _). vm_compute. exact I. }
  assert (Hv : "green" ∈ ["red"; "green"; "blue"; "all"]).
  { apply (bool_decide_unpack _). vm_compute. exact I. }
  split; [split; reflexivity|].
  split; [reflexivity|]. split; [reflexivity|].
  split; [exact Hnd|]. split; [exact Hopt|]. split; [reflexivity|].
  split; [exact Hv|]. split; [discriminate|].
  match goal with |- ∃ w', toggle _ _ ?w = _ ∧ _ =>
    apply (X5_checking_a_colour_drops_all "green" w) end.
  - split; reflexivity.
  - reflexivity.
  - reflexivity.
  - exact Hnd.
  - exact Hopt.
  - reflexivity.
  - exact Hv.
  - discriminate.
Defined.

Lemma filter_none (P : string → Prop) `{∀ x, Decision (P x)} (l : list string) :
  (∀ x, ¬ P x) → filter P l = [].
Proof.
  intros HP. induction l as [|x l IH]; [reflexivity|].
  rewrite filter_cons_False by apply HP. exact IH.
Qed.


(** ** Notifications and changes *)

Lemma spec_reconcile_moves (c val : list string) :
  val ≠ c → spec_reconcile c val ≠ c.
Proof.
  intros Hne. unfold spec_reconcile.
  case_bool_decide as Hv; [|exact Hne].
  case_bool_decide as Hc.
  - intros Heq. rewrite <- Heq in Hc. apply list_elem_of_filter in Hc as [Hc _].
    apply Hc. reflexivity.
  - intros Heq. apply Hc. rewrite <- Heq. apply list_elem_of_here.
Qed.

(** X7: on a [ControlColor] at rest, ['change:checked'] is triggered exactly
    when the stored list ends up different from the one before the call:
    listeners are never called for a call that leaves the list as it was,
    and a call whose argument differs from the stored list always changes
    it, whatever [updateChecked] makes of the argument. *)
Theorem X7_notified_iff_changed (val : list string) (w : World) :
  at_rest w → is_ControlColor w →
  ∃ w' delta,
    setChecked val w = Some w' ∧ log w' = log w ++ delta ∧
    (getChecked w' ≠ getChecked w ↔ val ≠ getChecked w) ∧
    count_events (is_trigger "change:checked") delta
      = (if bool_decide (getChecked w' = getChecked w) then 0 else 1) ∧
    count_events (is_call cb_updateChecked) delta
      = (if bool_decide (getChecked w' = getChecked w) then 0 else 1).
Proof.
  intros Hrest Hcc. apply is_ControlColor_listeners in Hcc as [bound Hev].
  destruct (decide (val = getChecked w)) as [Heq|Hne].
  - rewrite (setChecked_same val w Hrest Heq).
    eexists. exists [ev_set val false]. split; [reflexivity|].
    split; [reflexivity|]. cbn [getChecked model attributes].
    split; [split; intros H; exfalso; apply H; [reflexivity|exact Heq]|].
    rewrite bool_decide_true by reflexivity. split; reflexivity.
  - rewrite (setChecked_changed bound val w Hrest Hev Hne).
    eexists. exists (notified bound (getChecked w) val). split; [reflexivity|].
    split; [reflexivity|]. cbn [getChecked model attributes checked].
    assert (Hmv := spec_reconcile_moves (checked (attributes (model w))) val Hne).
    split; [split; intros _; assumption|].
    rewrite bool_decide_false by exact Hmv.
    unfold notified. destruct (Underscore.contains val "all"), bound; split; reflexivity.
Qed.

Lemma X7_notified_iff_changed_witness :
  at_rest fresh ∧ is_ControlColor fresh ∧
  ∃ w' delta,
    setChecked ["all"; "red"] fresh = Some w' ∧ log w' = log fresh ++ delta ∧
    (getChecked w' ≠ getChecked fresh ↔ ["all"; "red"] ≠ getChecked fresh) ∧
    count_events (is_trigger "change:checked") delta
      = (if bool_decide (getChecked w' = getChecked fresh) then 0 else 1) ∧
    count_events (is_call cb_updateChecked) delta
      = (if bool_decide (getChecked w' = getChecked fresh) then 0 else 1).
Proof.
  split; [split; reflexivity|].
  split; [left; reflexivity|].
  apply (X7_notified_iff_changed ["all"; "red"] fresh).
  - split; reflexivity.
  - left; reflexivity.
Defined.

(** ** Calls that repeat *)

(** X8: on a [ControlColor] at rest, [setChecked(["all"])] stores ["all"]
    when the stored list is ["all"] or holds no "all" (first a no-op, then
    rule 2b), and the empty list when "all" is stored together with other
    identifiers, as it can be after construction (rule 2a removes the only
    element). *)
Theorem X8_select_all (w : World) :
  at_rest w → is_ControlColor w →
  ∃ w', setChecked ["all"] w = Some w' ∧
        getChecked w'
          = (if bool_decide (all_exclusive (getChecked w)) then ["all"] else []).
Proof.
  intros Hrest Hcc.
  destruct (setChecked_preserves ["all"] w Hrest Hcc)
    as (w' & Hset & _ & _ & _ & _ & Hc).
  exists w'. split; [exact Hset|]. rewrite Hc.
  unfold Underscore.isEqual, all_exclusive, spec_reconcile.
  rewrite (bool_decide_true ("all" ∈ ["all"])) by apply list_elem_of_here.
  case_bool_decide as Heq.
  - rewrite bool_decide_true by (left; exact Heq). reflexivity.
  - case_bool_decide as Hin.
    + rewrite bool_decide_false by (intros [H|H]; [exact (Heq H)|exact (H Hin)]).
      reflexivity.
    + rewrite bool_decide_true by (right; exact Hin). reflexivity.
Qed.

Lemma X8_select_all_witness :
  at_rest (built_with ["all"; "red"]) ∧ is_ControlColor (built_with ["all"; "red"]) ∧
  ∃ w', setChecked ["all"] (built_with ["all"; "red"]) = Some w' ∧
        getChecked w'
          = (if bool_decide (all_exclusive (getChecked (built_with ["all"; "red"])))
             then ["all"] else []).
Proof.
  split; [split; reflexivity|].
  split; [left; reflexivity|].
  apply (X8_select_all (built_with ["all"; "red"])).
  - split; reflexivity.
  - left; reflexivity.
Defined.

(** X9: [setChecked] is not idempotent.  On a [ControlColor] at rest whose
    list holds no "all", the same argument, holding "all" and something
    else, stores ["all"] on the first call, the argument without "all" on
    the second, and ["all"] again on the third. *)
Theorem X9_same_call_alternates (val : list string) (w : World) :
  at_rest w → is_ControlColor w →
  "all" ∉ getChecked w → "all" ∈ val → val ≠ ["all"] →
  ∃ w1 w2 w3,
    setChecked val w = Some w1 ∧ getChecked w1 = ["all"] ∧
    setChecked val w1 = Some w2 ∧ getChecked w2 = filter (λ x, x ≠ "all") val ∧
    setChecked val w2 = Some w3 ∧ getChecked w3 = ["all"].
Proof.
  intros Hrest Hcc Hc Hv Hne.
  assert (Hstep : ∀ u, at_rest u → is_ControlColor u → val ≠ getChecked u →
            ∃ u', setChecked val u = Some u' ∧ at_rest u' ∧ is_ControlColor u' ∧
                  getChecked u' = spec_reconcile (getChecked u) val).
  { intros u Hr Hi Hd.
    destruct (setChecked_preserves val u Hr Hi) as (u' & Hs & Hr' & He & _ & _ & Hg).
    exists u'. split; [exact Hs|]. split; [exact Hr'|].
    split; [unfold is_ControlColor in *; rewrite He; exact Hi|].
    rewrite Hg. unfold Underscore.isEqual.
    rewrite bool_decide_false by congruence. reflexivity. }
  destruct (Hstep w Hrest Hcc) as (w1 & H1 & Hr1 & Hi1 & Hg1);
    [intros Heq; rewrite <- Heq in Hc; exact (Hc Hv)|].
  assert (Hc1 : getChecked w1 = ["all"]).
  { rewrite Hg1. unfold spec_reconcile.
    rewrite bool_decide_true by exact Hv. rewrite bool_decide_false by exact Hc.
    reflexivity. }
  destruct (Hstep w1 Hr1 Hi1) as (w2 & H2 & Hr2 & Hi2 & Hg2);
    [rewrite Hc1; exact Hne|].
  assert (Hc2 : getChecked w2 = filter (λ x, x ≠ "all") val).
  { rewrite Hg2, Hc1. unfold spec_reconcile.
    rewrite bool_decide_true by exact Hv.
    rewrite bool_decide_true by apply list_elem_of_here. reflexivity. }
  assert (Hno : "all" ∉ getChecked w2).
  { rewrite Hc2, list_elem_of_filter. intros [H _]. apply H. reflexivity. }
  destruct (Hstep w2 Hr2 Hi2) as (w3 & H3 & _ & _ & Hg3);
    [intros Heq; rewrite <- Heq in Hno; exact (Hno Hv)|].
  exists w1, w2, w3. repeat split; try assumption.
  rewrite Hg3. unfold spec_reconcile.
  rewrite bool_decide_true by exact Hv. rewrite bool_decide_false by exact Hno.
  reflexivity.
Qed.

Lemma X9_same_call_alternates_witness :
  at_rest (built_with ["red"]) ∧ is_ControlColor (built_with ["red"]) ∧
  ("all" ∉ getChecked (built_with ["red"])) ∧ "all" ∈ ["all"; "blue"] ∧
  ["all"; "blue"] ≠ ["all"] ∧
  ∃ w1 w2 w3,
    setChecked ["all"; "blue"] (built_with ["red"]) = Some w1 ∧
    getChecked w1 = ["all"] ∧
    setChecked ["all"; "blue"] w1 = Some w2 ∧
    getChecked w2 = filter (λ x, x ≠ "all") ["all"; "blue"] ∧
    setChecked ["all"; "blue"] w2 = Some w3 ∧ getChecked w3 = ["all"].
Proof.
  assert (Hc : "all" ∉ getChecked (built_with ["red"])).
  { apply (bool_decide_unpack _). vm_compute. exact I. }
  assert (Hv : "all" ∈ ["all"; "blue"]) by apply list_elem_of_here.
  assert (Hne : ["all"; "blue"] ≠ ["all"]) by discriminate.
  split; [split; reflexivity|].
  split; [left; reflexivity|].
  split; [exact Hc|]. split; [exact Hv|]. split; [exact Hne|].
  apply (X9_same_call_alternates ["all"; "blue"] (built_with ["red"])).
  - split; reflexivity.
  - left; reflexivity.
  - exact Hc.
  - exact Hv.
  - exact Hne.
Defined.

(** ** What [set] leaves alone *)

Lemma invoke_frame (val : list string) (cb : callback) (w w' : World) :
  Backbone.invoke (Backbone.set 1) val (Some w) cb = Some w' → same_frame w w'.
Proof.
  unfold Backbone.invoke. cbn [mbind option_bind].
  destruct cb.
  - unfold ControlColor.updateChecked.
    destruct (Underscore.contains val "all").
    + rewrite set_silent. intros [= <-].
      destruct (_changing _); repeat split.
    + intros [= <-]. repeat split.
  - intros [= <-]. repeat split.
Qed.

Lemma foldl_invoke_frame (val : list string) (cbs : list callback) :
  ∀ w w', foldl (Backbone.invoke (Backbone.set 1) val) (Some w) cbs = Some w' →
          same_frame w w'.
Proof.
  induction cbs as [|cb cbs IH]; intros w w'.
  - intros [= <-]. repeat split.
  - cbn [foldl].
    destruct (Backbone.invoke (Backbone.set 1) val (Some w) cb) as [w1|] eqn:H1.
    + intros H. apply invoke_frame in H1 as (Ha & Hb & Hc).
      apply IH in H as (Ha' & Hb' & Hc'). repeat split; congruence.
    + rewrite foldl_invoke_None. discriminate.
Qed.

Lemma setChecked_frame (val : list string) (w w' : World) :
  setChecked val w = Some w' → same_frame w w'.
Proof.
  unfold setChecked.
  change (Backbone.set 2 val false w)
    with (Backbone.set_body (Backbone.set 1) val false w).
  unfold Backbone.set_body.
  destruct (negb _).
  - unfold Backbone.trigger_change_checked.
    match goal with |- context [foldl ?f (Some ?x) ?l] =>
      destruct (foldl f (Some x) l) as [w1|] eqn:H1 end; [|discriminate].
    apply foldl_invoke_frame in H1 as (Ha & Hb & Hc).
    cbn [mbind option_bind].
    match goal with |- (if ?b then _ else _) = _ → _ => destruct b end.
    + intros [= <-]. repeat split; assumption.
    + intros [= <-].
      destruct (_pending (model w1)); repeat split; assumption.
  - cbn [mbind option_bind].
    match goal with |- (if ?b then _ else _) = _ → _ => destruct b end.
    + intros [= <-]. repeat split.
    + intros [= <-].
      match goal with |- context [if ?b then _ else _] => destruct b end;
        repeat split.
Qed.

(** X10: whatever listens to the model and whatever state it is in, every
    sequence of [setChecked] calls returns and leaves the options as they
    were: neither [set], nor [updateChecked], nor [render] writes to the
    options array, to any other array, or to the list of listeners. *)
Theorem X10_options_are_never_touched (calls : list (list string)) (w : World) :
  ∃ w', setChecked_all calls w = Some w' ∧
        getOptions w' = getOptions w ∧
        heap w' = heap w ∧
        _events (model w') = _events (model w).
Proof.
  revert w. induction calls as [|val calls IH]; intros w.
  - exists w. repeat split.
  - destruct (setChecked_total val w) as [w1 H1].
    destruct (setChecked_frame val w w1 H1) as (Ha & Hb & Hc).
    destruct (IH w1) as (w' & Hall & Ho & Hh & He).
    exists w'. cbn [setChecked_all]. rewrite H1. split; [exact Hall|].
    split; [|split; congruence].
    rewrite Ho. unfold getOptions. rewrite Ha, Hb. reflexivity.
Qed.


(** ** The array of [defaults] over many constructions *)

Lemma new_ControlColor_heap_other (a : ControlColor.Args)
    (h : gmap loc (list string)) (l : loc) :
  l ≠ ControlColor.defaulted_options a →
  (new_ControlColor a h).2 !! l = h !! l.
Proof.
  intros Hne. unfold new_ControlColor, ControlColor.initialize, push. cbn [snd].
  apply lookup_alter_ne. congruence.
Qed.

(** X11: the array of [defaults] keeps growing.  After any number of
    constructions, the array of [defaults], which held [D] before, holds [D]
    followed by one "all" for every construction that was given no options
    (constructions with their own array leave it alone), and the next model
    built with no options reads one more. *)
Theorem X11_defaults_accumulate_all (args : list ControlColor.Args)
    (h : gmap loc (list string)) (D : list string) (c : option (list string)) :
  h !! ControlColor.defaults_options = Some D →
  build_all args h !! ControlColor.defaults_options
    = Some (D ++ replicate (on_defaults args) "all") ∧
  getOptions (standalone (new_ControlColor (ControlColor.mkArgs None c)
                                           (build_all args h)))
    = D ++ replicate (S (on_defaults args)) "all".
Proof.
  intros HD.
  assert (Hheap : build_all args h !! ControlColor.defaults_options
                  = Some (D ++ replicate (on_defaults args) "all")).
  { revert h D HD. induction args as [|a args IH]; intros h D HD.
    - cbn. rewrite app_nil_r. exact HD.
    - cbn [build_all]. unfold on_defaults.
      destruct (decide (ControlColor.defaulted_options a
                        = ControlColor.defaults_options)) as [Heq|Hne].
      + rewrite filter_cons_True by exact Heq. cbn [length replicate].
        rewrite (IH _ (D ++ ["all"])).
        * unfold on_defaults. rewrite <- app_assoc. reflexivity.
        * rewrite <- Heq. apply new_ControlColor_heap. rewrite Heq. exact HD.
      + rewrite filter_cons_False by exact Hne.
        apply IH. rewrite new_ControlColor_heap_other by congruence. exact HD. }
  split; [exact Hheap|].
  rewrite (new_ControlColor_getOptions (ControlColor.mkArgs None c) _ _ Hheap).
  rewrite replicate_S_end, app_assoc. reflexivity.
Qed.

Lemma X11_defaults_accumulate_all_witness :
  caller_heap !! ControlColor.defaults_options = Some [] ∧
  build_all [ControlColor.mkArgs None None;
             ControlColor.mkArgs (Some 1) None;
             ControlColor.mkArgs None (Some ["red"])] caller_heap
    !! ControlColor.defaults_options
    = Some ([] ++ replicate 2 "all") ∧
  getOptions (standalone (new_ControlColor (ControlColor.mkArgs None None)
    (build_all [ControlColor.mkArgs None None;
                ControlColor.mkArgs (Some 1) None;
                ControlColor.mkArgs None (Some ["red"])] caller_heap)))
    = [] ++ replicate 3 "all".
Proof.
  assert (HD : caller_heap !! ControlColor.defaults_options = Some []) by reflexivity.
  split; [exact HD|].
  exact (X11_defaults_accumulate_all
           [ControlColor.mkArgs None None;
            ControlColor.mkArgs (Some 1) None;
            ControlColor.mkArgs None (Some ["red"])] caller_heap [] None HD).
Defined.

(** ** The view over a plain model *)

(** X12: the "all" rule is the model's, not the view's.  With the view bound
    to a plain [Backbone.Model] at rest, [setChecked] stores its argument as
    it is, "all" next to other identifiers included, and when the argument
    differs from the stored list the controls are rebuilt from it. *)
Theorem X12_plain_model_stores_verbatim (val : list string) (w : World) :
  at_rest w → plain_bound w →
  ∃ w', setChecked val w = Some w' ∧
        getChecked w' = val ∧
        el w' = (if bool_decide (val = getChecked w) then el w
                 else ControlColorView.items (getOptions w) val).
Proof.
  intros Hrest Hbound. case_bool_decide as Heq.
  - rewrite (setChecked_same val w Hrest Heq).
    eexists. split; [reflexivity|]. split; [symmetry; exact Heq|reflexivity].
  - rewrite (setChecked_changed_plain val w Hrest Hbound Heq).
    eexists. split; [reflexivity|]. split; reflexivity.
Qed.

Lemma X12_plain_model_stores_verbatim_witness :
  at_rest test_view ∧ plain_bound test_view ∧
  ∃ w', setChecked ["all"; "red"] test_view = Some w' ∧
        getChecked w' = ["all"; "red"] ∧
        el w' = (if bool_decide (["all"; "red"] = getChecked test_view)
                 then el test_view
                 else ControlColorView.items (getOptions test_view) ["all"; "red"]).
Proof.
  split; [split; reflexivity|].
  split; [reflexivity|].
  apply (X12_plain_model_stores_verbatim ["all"; "red"] test_view).
  - split; reflexivity.
  - reflexivity.
Defined.

(** ** Reading the controls back *)

Lemma filter_ext_elem (P Q : string → Prop) `{∀ x, Decision (P x)}
    `{∀ x, Decision (Q x)} (l : list string) :
  (∀ x, x ∈ l → (P x ↔ Q x)) → filter P l = filter Q l.
Proof.
  induction l as [|x l IH]; intros Hext; [reflexivity|].
  assert (Hl : filter P l = filter Q l)
    by (apply IH; intros y Hy; apply Hext; right; exact Hy).
  destruct (decide (P x)) as [HP|HP].
  - rewrite filter_cons_True by exact HP.
    rewrite (filter_cons_True Q) by (apply Hext; [left|exact HP]).
    f_equal. exact Hl.
  - rewrite filter_cons_False by exact HP.
    rewrite (filter_cons_False Q)
      by (intros HQ; apply HP, Hext; [left|exact HQ]).
    exact Hl.
Qed.

Lemma filter_mem_filter (P : string → Prop) `{∀ x, Decision (P x)}
    (opts : list string) :
  filter (λ o, o ∈ filter P opts) opts = filter P opts.
Proof.
  apply filter_ext_elem. intros x Hx. rewrite list_elem_of_filter. tauto.
Qed.

Lemma shown_items (opts c : list string) (w : World) :
  el w = ControlColorView.items opts c → shown w = filter (λ o, o ∈ c) opts.
Proof.
  intros Hel. unfold shown. rewrite Hel. unfold ControlColorView.items.
  rewrite pluck_rendered. apply list_filter_iff. intros o.
  unfold Underscore.contains. rewrite bool_decide_eq_true. reflexivity.
Qed.

Lemma readback_reconcile (P : string → Prop) `{∀ x, Decision (P x)}
    (opts c : list string) :
  NoDup opts →
  filter (λ o, o ∈ spec_reconcile c (filter P opts)) opts
  = spec_reconcile c (filter P opts).
Proof.
  intros Hnd. unfold spec_reconcile.
  case_bool_decide as Hv; [|apply filter_mem_filter].
  case_bool_decide as Hc.
  - rewrite list_filter_filter. apply (filter_mem_filter (λ x, x ≠ "all" ∧ P x)).
  - apply list_elem_of_filter in Hv as [_ Hv].
    transitivity (filter (λ o, o = "all") opts);
      [|apply filter_only; assumption].
    apply list_filter_iff. intros o. apply list_elem_of_singleton.
Qed.

(** X13: once [handleChange] has run, the model's list is what the controls
    show.  With the view bound (to a [ControlColor] or a plain model), the
    options distinct and the controls being one checkbox per option with
    any flags, the change handler returns; afterwards the values of the
    checked controls, read in document order, are exactly the stored list,
    and a second change event with no click in between triggers nothing and
    changes neither the list nor the controls. *)
Theorem X13_change_settles (f : string → bool) (w : World) :
  at_rest w → view_bound w ∨ plain_bound w → NoDup (getOptions w) →
  el w = map (λ o, input_checkbox o (f o)) (getOptions w) →
  ∃ w1 w2,
    fire_change w = Some w1 ∧ shown w1 = getChecked w1 ∧
    fire_change w1 = Some w2 ∧
    getChecked w2 = getChecked w1 ∧ el w2 = el w1 ∧
    log w2 = log w1 ++ [ev_set (getChecked w1) false].
Proof.
  intros Hrest Hbound Hnd Hel.
  set (val := filter (λ o, f o = true) (getOptions w)).
  assert (Hshown : shown w = val)
    by (unfold shown; rewrite Hel; apply pluck_rendered).
  assert (Hfire : ∀ u, fire_change u = setChecked (shown u) u) by reflexivity.
  assert (Hfirst : ∃ w1, fire_change w = Some w1 ∧ at_rest w1 ∧
                         shown w1 = getChecked w1).
  { rewrite Hfire, Hshown.
    destruct (decide (val = getChecked w)) as [Heq|Hne].
    - rewrite (setChecked_same val w Hrest Heq).
      eexists. split; [reflexivity|]. split; [split; reflexivity|].
      unfold shown in *. cbn [el getChecked model attributes].
      rewrite Hshown. exact Heq.
    - destruct Hbound as [Hb|Hb].
      + rewrite (setChecked_changed true val w Hrest Hb Hne).
        eexists. split; [reflexivity|]. split; [split; reflexivity|].
        rewrite (shown_items (getOptions w) (spec_reconcile (getChecked w) val))
          by reflexivity.
        cbn [getChecked model attributes checked].
        apply (readback_reconcile (λ o, f o = true)), Hnd.
      + rewrite (setChecked_changed_plain val w Hrest Hb Hne).
        eexists. split; [reflexivity|]. split; [split; reflexivity|].
        rewrite (shown_items (getOptions w) val) by reflexivity.
        cbn [getChecked model attributes checked].
        apply (filter_mem_filter (λ o, f o = true)). }
  destruct Hfirst as (w1 & H1 & Hrest1 & Hs1).
  exists w1. eexists. split; [exact H1|]. split; [exact Hs1|].
  rewrite Hfire, Hs1.
  rewrite (setChecked_same (getChecked w1) w1 Hrest1 eq_refl).
  split; [reflexivity|]. repeat split.
Qed.

Lemma X13_change_settles_witness :
  at_rest test_view ∧ (view_bound test_view ∨ plain_bound test_view) ∧
  NoDup (getOptions test_view) ∧
  el test_view
    = map (λ o, input_checkbox o (bool_decide (o ∈ ["blue"; "red"])))
          (getOptions test_view) ∧
  ∃ w1 w2,
    fire_change test_view = Some w1 ∧ shown w1 = getChecked w1 ∧
    fire_change w1 = Some w2 ∧
    getChecked w2 = getChecked w1 ∧ el w2 = el w1 ∧
    log w2 = log w1 ++ [ev_set (getChecked w1) false].
Proof.
  assert (Hnd : NoDup (getOptions test_view)).
  { apply (bool_decide_unpack _). vm_compute. exact I. }
  split; [split; reflexivity|].
  split; [right; reflexivity|].
  split; [exact Hnd|]. split; [reflexivity|].
  apply (X13_change_settles (λ o, bool_decide (o ∈ ["blue"; "red"])) test_view).
  - split; reflexivity.
  - right; reflexivity.
  - exact Hnd.
  - reflexivity.
Defined.

(** X15: the value handed to the listeners is not the value stored.  On a
    [ControlColor] at rest with the view bound, a call whose argument holds
    "all", is not ["all"] itself and differs from the stored list invokes
    [render] with the argument as the event's value, while the list stored
    by then, which [render] shows, is a different one. *)
Theorem X15_listeners_get_the_raw_list (val : list string) (w : World) :
  at_rest w → view_bound w →
  val ≠ getChecked w → "all" ∈ val → val ≠ ["all"] →
  ∃ w', setChecked val w = Some w' ∧
        ev_call cb_render val ∈ log w' ∧
        ev_trigger "change:checked" (Some val) ∈ log w' ∧
        getChecked w' ≠ val ∧
        el w' = ControlColorView.items (getOptions w) (getChecked w').
Proof.
  intros Hrest Hbound Hne Hall Hnot.
  rewrite (setChecked_changed true val w Hrest Hbound Hne).
  eexists. split; [reflexivity|]. cbn [log getChecked model attributes checked el].
  unfold notified. split; [|split; [|split; [|reflexivity]]].
  - rewrite !elem_of_app. right. right. right. left. apply list_elem_of_here.
  - rewrite !elem_of_app. right. left. right. left.
  - unfold spec_reconcile. rewrite bool_decide_true by exact Hall.
    case_bool_decide as Hc.
    + intros Heq. rewrite <- Heq in Hall.
      apply list_elem_of_filter in Hall as [H _]. apply H. reflexivity.
    + intros Heq. apply Hnot. symmetry. exact Heq.
Qed.

Lemma X15_listeners_get_the_raw_list_witness :
  at_rest color_view ∧ view_bound color_view ∧
  ["red"; "all"] ≠ getChecked color_view ∧ "all" ∈ ["red"; "all"] ∧
  ["red"; "all"] ≠ ["all"] ∧
  ∃ w', setChecked ["red"; "all"] color_view = Some w' ∧
        ev_call cb_render ["red"; "all"] ∈ log w' ∧
        ev_trigger "change:checked" (Some ["red"; "all"]) ∈ log w' ∧
        getChecked w' ≠ ["red"; "all"] ∧
        el w' = ControlColorView.items (getOptions color_view) (getChecked w').
Proof.
  assert (Hne : ["red"; "all"] ≠ getChecked color_view) by discriminate.
  assert (Hall : "all" ∈ ["red"; "all"]).
  { apply (bool_decide_unpack _). vm_compute. exact I. }
  assert (Hnot : ["red"; "all"] ≠ ["all"]) by discriminate.
  split; [split; reflexivity|].
  split; [reflexivity|].
  split; [exact Hne|]. split; [exact Hall|]. split; [exact Hnot|].
  apply (X15_listeners_get_the_raw_list ["red"; "all"] color_view).
  - split; reflexivity.
  - reflexivity.
  - exact Hne.
  - exact Hall.
  - exact Hnot.
Defined.

(** ** The view follows the model *)

(** X2: with the view bound to a model at rest (a [ControlColor] or a plain
    model) and the controls showing the model when [setChecked] is called,
    the call returns and the controls show the model when it returns: one
    checkbox per option, checked exactly when the option is in the list now
    stored, which is the argument on a plain model and the reconciled list
    on a [ControlColor]. *)
Theorem X2_call_keeps_view_in_sync (val : list string) (w : World) :
  at_rest w → view_bound w ∨ plain_bound w → in_sync w →
  ∃ w', setChecked val w = Some w' ∧
        el w' = ControlColorView.items (getOptions w) (getChecked w') ∧
        in_sync w' ∧
        getOptions w' = getOptions w ∧
        length (el w') = length (getOptions w) ∧
        (plain_bound w → getChecked w' = val) ∧
        (view_bound w →
         getChecked w' = (if Underscore.isEqual (getChecked w) val then val
                          else spec_reconcile (getChecked w) val)).
Proof.
  intros Hrest Hbound Hsync.
  unfold Underscore.isEqual.
  destruct (decide (val = getChecked w)) as [Heq|Hne].
  - rewrite (setChecked_same val w Hrest Heq).
    eexists. split; [reflexivity|].
    cbn [el getChecked getOptions model attributes heap].
    split; [exact Hsync|]. split; [exact Hsync|]. split; [reflexivity|].
    split; [rewrite Hsync; apply length_map|].
    split; [intros _; symmetry; exact Heq|].
    intros _. rewrite bool_decide_true by (symmetry; exact Heq).
    symmetry. exact Heq.
  - destruct Hbound as [Hb|Hb].
    + rewrite (setChecked_changed true val w Hrest Hb Hne).
      eexists. split; [reflexivity|]. split; [reflexivity|].
      split; [reflexivity|]. split; [reflexivity|].
      split; [apply length_map|].
      split; [intros Hp; unfold view_bound, plain_bound in *; congruence|].
      intros _. rewrite bool_decide_false by congruence. reflexivity.
    + rewrite (setChecked_changed_plain val w Hrest Hb Hne).
      eexists. split; [reflexivity|]. split; [reflexivity|].
      split; [reflexivity|]. split; [reflexivity|].
      split; [apply length_map|].
      split; [intros _; reflexivity|].
      intros Hv. unfold view_bound, plain_bound in *. congruence.
Qed.

Lemma X2_call_keeps_view_in_sync_witness :
  at_rest color_view ∧ (view_bound color_view ∨ plain_bound color_view) ∧
  in_sync color_view ∧
  ∃ w', setChecked ["green"; "all"] color_view = Some w' ∧
        el w' = ControlColorView.items (getOptions color_view) (getChecked w') ∧
        in_sync w' ∧
        getOptions w' = getOptions color_view ∧
        length (el w') = length (getOptions color_view) ∧
        (plain_bound color_view → getChecked w' = ["green"; "all"]) ∧
        (view_bound color_view →
         getChecked w'
           = (if Underscore.isEqual (getChecked color_view) ["green"; "all"]
              then ["green"; "all"]
              else spec_reconcile (getChecked color_view) ["green"; "all"])).
Proof.
  split; [split; reflexivity|].
  split; [left; reflexivity|].
  split; [reflexivity|].
  apply (X2_call_keeps_view_in_sync ["green"; "all"] color_view).
  - split; reflexivity.
  - left; reflexivity.
  - reflexivity.
Defined.

(** ** A click on one control *)

Lemma insert_map_NoDup (f g : string → node) (l : list string) :
  NoDup l → ∀ i o, l !! i = Some o →
  <[i := g o]> (map f l) = map (λ x, if bool_decide (x = o) then g x else f x) l.
Proof.
  induction l as [|x l IH]; intros Hnd i o Hi; [destruct i; discriminate Hi|].
  apply NoDup_cons in Hnd as [Hx Hnd].
  destruct i as [|i]; cbn in Hi.
  - injection Hi as ->. cbn [map]. cbn.
    rewrite bool_decide_true by reflexivity. f_equal.
    apply map_ext_in. intros y Hy. apply list_elem_of_In in Hy.
    rewrite bool_decide_false; [reflexivity|]. intros ->. exact (Hx Hy).
  - cbn [map]. cbn.
    rewrite bool_decide_false.
    + f_equal. apply IH; assumption.
    + intros ->. apply Hx. apply list_elem_of_lookup. exists i. exact Hi.
Qed.

(** With distinct options and the controls showing the model, a click on
    the control of option [o] is the flip of every control of value [o]. *)
Lemma click_flips (i : nat) (o : string) (w : World) :
  in_sync w → NoDup (getOptions w) → getOptions w !! i = Some o →
  click i w
  = toggle o (negb (Underscore.contains (getChecked w) o)) w.
Proof.
  intros Hsync Hnd Hi. unfold click, toggle. unfold in_sync in Hsync.
  assert (Hel : el w !! i = Some (input_checkbox o (Underscore.contains (getChecked w) o))).
  { rewrite Hsync. unfold ControlColorView.items.
    rewrite list_lookup_fmap, Hi. reflexivity. }
  rewrite Hel. f_equal. unfold prop_checked. f_equal.
  rewrite Hsync at 1. unfold ControlColorView.items.
  rewrite (insert_map_NoDup _
             (λ x, input_checkbox x (negb (Underscore.contains (getChecked w) o)))
             _ Hnd i o Hi).
  rewrite Hsync. unfold ControlColorView.items. rewrite map_map.
  apply map_ext. intros x. case_bool_decide; reflexivity.
Qed.

(** X3: with the view bound (to a [ControlColor] or a plain model) and at
    rest, the options distinct and the controls showing the model, a click
    on the control of an option flips that one control and fires the change
    handler, which returns; the list it submits always differs from the
    stored one, so the stored list changes (to the submitted list on a
    plain model, to its reconciliation on a [ControlColor]) and the
    controls are rebuilt from it: the view shows the model again. *)
Theorem X3_click_rerenders (i : nat) (o : string) (w : World) :
  at_rest w → view_bound w ∨ plain_bound w → in_sync w →
  NoDup (getOptions w) → getOptions w !! i = Some o →
  ∃ w', click i w = Some w' ∧
        in_sync w' ∧ at_rest w' ∧
        getOptions w' = getOptions w ∧
        getChecked w' ≠ getChecked w ∧
        (plain_bound w →
         getChecked w'
           = clicked o (negb (Underscore.contains (getChecked w) o)) w) ∧
        (view_bound w →
         getChecked w'
           = spec_reconcile (getChecked w)
               (clicked o (negb (Underscore.contains (getChecked w) o)) w)).
Proof.
  intros Hrest Hbound Hsync Hnd Hi.
  rewrite (click_flips i o w Hsync Hnd Hi).
  set (b := negb (Underscore.contains (getChecked w) o)).
  rewrite (toggle_submits o b w Hsync).
  assert (Ho : o ∈ getOptions w) by (apply list_elem_of_lookup; exists i; exact Hi).
  assert (Hne : clicked o b w ≠ getChecked (prop_checked o b w))
    by exact (clicked_differs o b w Ho eq_refl).
  destruct Hbound as [Hb|Hb].
  - rewrite (setChecked_changed true _ (prop_checked o b w) Hrest Hb Hne).
    eexists. split; [reflexivity|]. split; [reflexivity|].
    split; [split; reflexivity|]. split; [reflexivity|].
    cbn [getChecked model attributes checked].
    split; [apply spec_reconcile_moves; exact Hne|].
    split; [intros Hp; unfold view_bound, plain_bound in *; congruence|].
    intros _. reflexivity.
  - rewrite (setChecked_changed_plain _ (prop_checked o b w) Hrest Hb Hne).
    eexists. split; [reflexivity|]. split; [reflexivity|].
    split; [split; reflexivity|]. split; [reflexivity|].
    cbn [getChecked model attributes checked].
    split; [exact Hne|].
    split; [intros _; reflexivity|].
    intros Hv. unfold view_bound, plain_bound in *. congruence.
Qed.

Lemma X3_click_rerenders_witness :
  at_rest test_view ∧ (view_bound test_view ∨ plain_bound test_view) ∧
  in_sync test_view ∧ NoDup (getOptions test_view) ∧
  getOptions test_view !! 1 = Some "green" ∧
  ∃ w', click 1 test_view = Some w' ∧
        in_sync w' ∧ at_rest w' ∧
        getOptions w' = getOptions test_view ∧
        getChecked w' ≠ getChecked test_view ∧
        (plain_bound test_view →
         getChecked w'
           = clicked "green"
               (negb (Underscore.contains (getChecked test_view) "green"))
               test_view) ∧
        (view_bound test_view →
         getChecked w'
           = spec_reconcile (getChecked test_view)
               (clicked "green"
                  (negb (Underscore.contains (getChecked test_view) "green"))
                  test_view)).
Proof.
  assert (Hnd : NoDup (getOptions test_view)).
  { apply (bool_decide_unpack _). vm_compute. exact I. }
  split; [split; reflexivity|].
  split; [right; reflexivity|].
  split; [reflexivity|]. split; [exact Hnd|]. split; [reflexivity|].
  apply (X3_click_rerenders 1 "green" test_view).
  - split; reflexivity.
  - right; reflexivity.
  - reflexivity.
  - exact Hnd.
  - reflexivity.
Defined.

(** X6: on a [ControlColor] at rest with the view bound and in sync, whose
    options are distinct and whose checked list is ["all"], a click on the
    "all" control stores the empty list and leaves every control unchecked:
    nothing falls back to "all". *)
Theorem X6_unchecking_all_leaves_nothing (i : nat) (w : World) :
  at_rest w → view_bound w → in_sync w →
  NoDup (getOptions w) → getOptions w !! i = Some "all" →
  getChecked w = ["all"] →
  ∃ w', click i w = Some w' ∧
        getChecked w' = [] ∧
        el w' = map (λ o, input_checkbox o false) (getOptions w).
Proof.
  intros Hrest Hbound Hsync Hnd Hi Hc.
  rewrite (click_flips i "all" w Hsync Hnd Hi).
  assert (Hb : negb (Underscore.contains (getChecked w) "all") = false).
  { rewrite Hc. unfold Underscore.contains.
    rewrite bool_decide_true by apply list_elem_of_here. reflexivity. }
  rewrite Hb. rewrite (toggle_submits "all" false w Hsync).
  assert (Hval : clicked "all" false w = []).
  { unfold clicked. apply filter_none. intros o.
    rewrite Hc. unfold Underscore.contains.
    case_bool_decide as Hoa; [discriminate|].
    rewrite bool_decide_false; [discriminate|].
    rewrite list_elem_of_singleton. exact Hoa. }
  assert (Hne : clicked "all" false w ≠ getChecked w)
    by (rewrite Hval, Hc; discriminate).
  rewrite (setChecked_changed true _ (prop_checked "all" false w) Hrest Hbound Hne).
  eexists. split; [reflexivity|].
  rewrite Hval. split; [reflexivity|].
  cbn [el]. unfold ControlColorView.items. apply map_ext. intros o. reflexivity.
Qed.

Lemma X6_unchecking_all_leaves_nothing_witness :
  at_rest (ControlColorView.render (new_ControlColorView [] (new_ControlColor
             (ControlColor.mkArgs (Some 1) None) caller_heap))) ∧
  NoDup (getOptions (ControlColorView.render (new_ControlColorView []
           (new_ControlColor (ControlColor.mkArgs (Some 1) None) caller_heap)))) ∧
  ∃ w', click 3
          (ControlColorView.render (new_ControlColorView [] (new_ControlColor
             (ControlColor.mkArgs (Some 1) None) caller_heap))) = Some w' ∧
        getChecked w' = [] ∧
        el w' = map (λ o, input_checkbox o false) ["red"; "green"; "blue"; "all"].
Proof.
  assert (Hnd : NoDup (getOptions (ControlColorView.render (new_ControlColorView []
           (new_ControlColor (ControlColor.mkArgs (Some 1) None) caller_heap))))).
  { apply (bool_decide_unpack _). vm_compute. exact I. }
  split; [split; reflexivity|]. split; [exact Hnd|].
  apply (X6_unchecking_all_leaves_nothing 3
           (ControlColorView.render (new_ControlColorView [] (new_ControlColor
              (ControlColor.mkArgs (Some 1) None) caller_heap)))).
  - split; reflexivity.
  - reflexivity.
  - reflexivity.
  - exact Hnd.
  - reflexivity.
  - reflexivity.
Defined.

(** Where the options repeat, a click is not the flip of every control of
    its value.  On the rendered view of the second [ControlColor] built
    with no arguments (options "all", "all"; checked ["all"]), unchecking
    the first control leaves the second checked: the handler submits
    ["all"], which is the stored list, so nothing is triggered, ["all"]
    stays stored and the first control stays unchecked. *)
Example click_with_repeated_options :
  let second := new_ControlColor (ControlColor.mkArgs None None)
                  (new_ControlColor (ControlColor.mkArgs None None)
                                    ControlColor.heap0).2 in
  let w := ControlColorView.render (new_ControlColorView [] second) in
  getOptions w = ["all"; "all"] ∧ getChecked w = ["all"] ∧
  ∃ w', click 0 w = Some w' ∧
        getChecked w' = ["all"] ∧
        el w' = [input_checkbox "all" false; input_checkbox "all" true] ∧
        log w' = [ev_set ["all"] false].
Proof.
  split; [reflexivity|]. split; [reflexivity|].
  eexists. split; [vm_compute; reflexivity|]. repeat split.
Qed.
